(** * Plan2Scene: texture propagation driver

    A shallow embedding of [process] from
    [code/scripts/plan2scene/texture_prop/gnn_texture_prop.py], of the
    script around it, and of the save reasons of
    [code/src/plan2scene/common/trainer/save_reason.py].

    [process] is orchestration: it builds two predictors, checks that the
    two graph-generator flags are not both set, picks a graph generator,
    wraps the houses in a batched dataset, optionally clears earlier
    predictions, runs the propagation model batch by batch, and finally
    synthesizes textures.  The houses dictionary is one shared object
    mutated in place, so the embedding threads it through a small
    state-and-exception monad together with a log of every call [process]
    makes to a collaborator, in program order. *)

From Stdlib Require Import Ascii.
From stdpp Require Import base strings gmap list pretty.

(** ** Configuration

    The fields of [ConfigManager] that [process] reads. *)

Record TextureGenConf := {
  texture_synth_conf : string;      (* conf.texture_gen.texture_synth_conf *)
  rgb_median_emb : bool;            (* conf.texture_gen.rgb_median_emb *)
  texture_gen_checkpoint_path : string  (* conf.texture_gen.checkpoint_path *)
}.

Record TexturePropConf := {
  device : string;                  (* conf.texture_prop.device *)
  train_graph_generator : string;   (* conf.texture_prop.train_graph_generator *)
  val_graph_generator : string;     (* conf.texture_prop.val_graph_generator *)
  train_bs : nat                    (* conf.texture_prop.train.bs *)
}.

Record ConfigManager := {
  texture_gen : TextureGenConf;
  texture_prop : TexturePropConf
}.

(** ** Objects built by [process]

    Constructors of collaborators are kept symbolic: the object records the
    arguments it was built from. *)

(** The evaluation config returned by [load_conf_eval(config_path=...)]. *)
Inductive EvalConf := load_conf_eval (config_path : string).

(** A graph generator is either obtained from [get_graph_generator] for a
    configured generator, or is the [InferenceHGG]. *)
Inductive GraphGenerator :=
| get_graph_generator (conf : ConfigManager) (graph_generator_conf : string)
    (include_target : bool)
| InferenceHGG (conf : ConfigManager) (include_target : bool).

Definition include_target (g : GraphGenerator) : bool :=
  match g with
  | get_graph_generator _ _ b => b
  | InferenceHGG _ b => b
  end.

Record TextureGenPredictor := {
  tg_conf : EvalConf;
  tg_rgb_median_emb : bool;
  tg_checkpoint : option string     (* set by load_checkpoint *)
}.

Record TexturePropPredictor := {
  tp_conf : ConfigManager;
  tp_prop_conf : TexturePropConf;
  tp_checkpoint : option string     (* set by load_checkpoint *)
}.

Inductive PredictorKind := TextureGen | TextureProp.

(** Modelled from the spec: the [ImageSource] enumeration of
    [plan2scene.common.image_description] is not among the sources; the
    data model tags a surface's texture with its provenance, observed,
    propagated or synthesized.  [process] only names [GNN_PROP]. *)
Inductive ImageSource := OBSERVED | GNN_PROP | SYNTHESIZED.

(** ** The collaborators

    What [process] imports and calls.  [House], [Batch] and [Output] are
    the collaborators' own data; [process] never looks inside them. *)

Class Collaborators := {
  House : Type;
  HouseDataset : Type;
  Batch : Type;
  Output : Type;
  (* HouseDataset(houses, graph_generator=...) *)
  new_HouseDataset : gmap string House → GraphGenerator → HouseDataset;
  (* len(DataLoader(dataset, batch_size=bs)), on the houses as they are now *)
  dataloader_len : HouseDataset → nat → gmap string House → nat;
  (* the i-th batch of the loader, built from the houses as they are now *)
  dataloader_batch : HouseDataset → nat → gmap string House → nat → Batch;
  (* batch.to(device) *)
  batch_to : Batch → string → Batch;
  (* tp_predictor.predict(batch) *)
  predict : TexturePropPredictor → Batch → Output;
  (* update_embeddings(conf, houses, batch, output, keep_existing_predictions=...) *)
  update_embeddings :
    ConfigManager → gmap string House → Batch → Output → bool → gmap string House;
  (* clear_predictions(conf, houses) *)
  clear_predictions : ConfigManager → gmap string House → gmap string House;
  (* fill_textures(conf, houses, log=..., predictor=..., image_source=...,
                   skip_existing_textures=...) *)
  fill_textures :
    ConfigManager → gmap string House → bool → TextureGenPredictor →
    ImageSource → bool → gmap string House
}.

Record DataLoader `{Collaborators} := {
  dataset : HouseDataset;
  batch_size : nat
}.

(** ** Call log, world and monad *)

Inductive Call :=
| call_load_conf_eval (config_path : string)
| call_TextureGenPredictor (conf : EvalConf) (rgb_median_emb : bool)
| call_TexturePropPredictor
| call_load_checkpoint (owner : PredictorKind) (checkpoint_path : string)
| call_get_graph_generator (graph_generator_conf : string) (include_target : bool)
| call_InferenceHGG (include_target : bool)
| call_HouseDataset (graph_generator : GraphGenerator)
| call_DataLoader (batch_size : nat)
| call_clear_predictions
| call_no_grad_enter
| call_no_grad_exit
| call_logging_info (msg : string)
| call_predict (batch_index : nat) (device : string)
| call_update_embeddings (batch_index : nat) (keep_existing_predictions : bool)
| call_fill_textures (log : bool) (image_source : ImageSource)
    (skip_existing_textures : bool).

Inductive Exception := AssertionError.

Inductive Result (A : Type) :=
| Returned (a : A)
| Raised (e : Exception).
Arguments Returned {A} a.
Arguments Raised {A} e.

(** The world is the houses dictionary, shared by the caller, the dataset
    and every collaborator that mutates it, and the log of calls so far. *)
Record World `{Collaborators} := {
  houses : gmap string House;
  calls : list Call
}.

Definition M `{Collaborators} (A : Type) : Type := World → Result A * World.

Section Monad.
Context `{Collaborators}.

Definition ret {A} (a : A) : M A := λ w, (Returned a, w).

Definition bind {A B} (m : M A) (k : A → M B) : M B :=
  λ w, match m w with
       | (Returned a, w') => k a w'
       | (Raised e, w') => (Raised e, w')
       end.

Definition log_call (c : Call) : M unit :=
  λ w, (Returned tt, {| houses := houses w; calls := calls w ++ [c] |}).

Definition get_houses : M (gmap string House) := λ w, (Returned (houses w), w).

Definition set_houses (h : gmap string House) : M unit :=
  λ w, (Returned tt, {| houses := h; calls := calls w |}).

(** [assert b]: raises [AssertionError] when [b] is false. *)
Definition py_assert (b : bool) : M unit :=
  λ w, if b then (Returned tt, w) else (Raised AssertionError, w).

End Monad.

Notation "x <- m ;; k" := (bind m (λ x, k))
  (at level 100, m at next level, right associativity).
Notation "m ;; k" := (bind m (λ _, k))
  (at level 100, right associativity).

(** ** Calls to the collaborators, as monadic actions

    Each action appends its call to the log; the ones that mutate the
    houses dictionary replace the shared state. *)

Section Process.
Context `{Collaborators}.

Definition load_conf_eval_ (config_path : string) : M EvalConf :=
  log_call (call_load_conf_eval config_path) ;;
  ret (load_conf_eval config_path).

Definition TextureGenPredictor_ (conf : EvalConf) (rgb_median_emb : bool)
  : M TextureGenPredictor :=
  log_call (call_TextureGenPredictor conf rgb_median_emb) ;;
  ret {| tg_conf := conf; tg_rgb_median_emb := rgb_median_emb; tg_checkpoint := None |}.

Definition TexturePropPredictor_ (conf : ConfigManager) (prop_conf : TexturePropConf)
  : M TexturePropPredictor :=
  log_call call_TexturePropPredictor ;;
  ret {| tp_conf := conf; tp_prop_conf := prop_conf; tp_checkpoint := None |}.

(** [load_checkpoint] mutates the predictor; the updated object is returned. *)
Definition tg_load_checkpoint (p : TextureGenPredictor) (checkpoint_path : string)
  : M TextureGenPredictor :=
  log_call (call_load_checkpoint TextureGen checkpoint_path) ;;
  ret {| tg_conf := tg_conf p; tg_rgb_median_emb := tg_rgb_median_emb p;
         tg_checkpoint := Some checkpoint_path |}.

Definition tp_load_checkpoint (p : TexturePropPredictor) (checkpoint_path : string)
  : M TexturePropPredictor :=
  log_call (call_load_checkpoint TextureProp checkpoint_path) ;;
  ret {| tp_conf := tp_conf p; tp_prop_conf := tp_prop_conf p;
         tp_checkpoint := Some checkpoint_path |}.

Definition get_graph_generator_ (conf : ConfigManager) (graph_generator_conf : string)
    (include_target : bool) : M GraphGenerator :=
  log_call (call_get_graph_generator graph_generator_conf include_target) ;;
  ret (get_graph_generator conf graph_generator_conf include_target).

Definition InferenceHGG_ (conf : ConfigManager) (include_target : bool)
  : M GraphGenerator :=
  log_call (call_InferenceHGG include_target) ;;
  ret (InferenceHGG conf include_target).

(** The dataset is handed the houses dictionary itself. *)
Definition HouseDataset_ (graph_generator : GraphGenerator) : M HouseDataset :=
  hs <- get_houses ;;
  log_call (call_HouseDataset graph_generator) ;;
  ret (new_HouseDataset hs graph_generator).

(** The loader of the framework rejects a batch size of zero with a
    [ValueError]; that failure is not part of this embedding, which
    describes the loader for positive batch sizes. *)
Definition DataLoader_ (ds : HouseDataset) (bs : nat) : M DataLoader :=
  log_call (call_DataLoader bs) ;;
  ret {| dataset := ds; batch_size := bs |}.

Definition len_dataloader (dl : DataLoader) : M nat :=
  hs <- get_houses ;;
  ret (dataloader_len (dataset dl) (batch_size dl) hs).

Definition clear_predictions_ (conf : ConfigManager) : M unit :=
  hs <- get_houses ;;
  log_call call_clear_predictions ;;
  set_houses (clear_predictions conf hs).

Definition logging_info (msg : string) : M unit :=
  log_call (call_logging_info msg).

Definition predict_ (p : TexturePropPredictor) (i : nat) (device : string) (batch : Batch)
  : M Output :=
  log_call (call_predict i device) ;;
  ret (predict p (batch_to batch device)).

Definition update_embeddings_ (conf : ConfigManager) (i : nat) (batch : Batch)
    (output : Output) (keep_existing_predictions : bool) : M unit :=
  hs <- get_houses ;;
  log_call (call_update_embeddings i keep_existing_predictions) ;;
  set_houses (update_embeddings conf hs batch output keep_existing_predictions).

Definition fill_textures_ (conf : ConfigManager) (log : bool)
    (predictor : TextureGenPredictor) (image_source : ImageSource)
    (skip_existing_textures : bool) : M unit :=
  hs <- get_houses ;;
  log_call (call_fill_textures log image_source skip_existing_textures) ;;
  set_houses (fill_textures conf hs log predictor image_source skip_existing_textures).

(** [with torch.no_grad(): body]: the mode is left again however [body] ends. *)
Definition no_grad {A} (body : M A) : M A :=
  λ w, match bind (log_call call_no_grad_enter) (λ _, body) w with
       | (r, w') => (r, {| houses := houses w'; calls := calls w' ++ [call_no_grad_exit] |})
       end.

(** [for i, batch in enumerate(dataloader): body]: the number of batches is
    fixed when the iteration starts; batch [i] is built from the houses as
    they are when it is requested. *)
Fixpoint for_batches (dl : DataLoader) (body : nat → Batch → M unit)
    (i remaining : nat) : M unit :=
  match remaining with
  | 0 => ret tt
  | S r =>
      hs <- get_houses ;;
      body i (dataloader_batch (dataset dl) (batch_size dl) hs i) ;;
      for_batches dl body (S i) r
  end.

Definition for_enumerate (dl : DataLoader) (body : nat → Batch → M unit) : M unit :=
  n <- len_dataloader dl ;;
  for_batches dl body 0 n.

(** ["Batch [%d/%d] Graph Inference" % (i, n)] *)
Definition batch_message (i n : nat) : string :=
  "Batch [" +:+ pretty i +:+ "/" +:+ pretty n +:+ "] Graph Inference".

(** ** [process] *)

Definition process (conf : ConfigManager) (checkpoint_path : string)
    (keep_existing_predictions use_train_graph_generator use_val_graph_generator : bool)
  : M unit :=
  let device := device (texture_prop conf) in
  tg_eval_conf <- load_conf_eval_ (texture_synth_conf (texture_gen conf)) ;;
  tg_predictor <- TextureGenPredictor_ tg_eval_conf (rgb_median_emb (texture_gen conf)) ;;
  tg_predictor <- tg_load_checkpoint tg_predictor
                    (texture_gen_checkpoint_path (texture_gen conf)) ;;
  tp_predictor <- TexturePropPredictor_ conf (texture_prop conf) ;;
  tp_predictor <- tp_load_checkpoint tp_predictor checkpoint_path ;;
  py_assert (negb (use_train_graph_generator && use_val_graph_generator)) ;;
  nt_graph_generator <-
    (if use_train_graph_generator then
       get_graph_generator_ conf (train_graph_generator (texture_prop conf)) false
     else if use_val_graph_generator then
       get_graph_generator_ conf (val_graph_generator (texture_prop conf)) false
     else
       InferenceHGG_ conf false) ;;
  val_nt_dataset <- HouseDataset_ nt_graph_generator ;;
  val_nt_dataloader <- DataLoader_ val_nt_dataset (train_bs (texture_prop conf)) ;;
  (if negb keep_existing_predictions then clear_predictions_ conf else ret tt) ;;
  no_grad
    (for_enumerate val_nt_dataloader (λ i batch,
       n <- len_dataloader val_nt_dataloader ;;
       logging_info (batch_message i n) ;;
       output <- predict_ tp_predictor i device batch ;;
       update_embeddings_ conf i batch output keep_existing_predictions)) ;;
  logging_info "Synthesizing textures" ;;
  fill_textures_ conf true tg_predictor GNN_PROP keep_existing_predictions.

(** Running [process] on a houses dictionary, from an empty call log. *)
Definition run_process (conf : ConfigManager) (hs : gmap string House)
    (checkpoint_path : string)
    (keep_existing_predictions use_train_graph_generator use_val_graph_generator : bool)
  : Result unit * World :=
  process conf checkpoint_path keep_existing_predictions
    use_train_graph_generator use_val_graph_generator
    {| houses := hs; calls := [] |}.

End Process.

(** ** The data model and the collaborators that are not among the sources

    [plan2scene.texture_prop.utils], [plan2scene.texture_prop.houses_dataset],
    [plan2scene.texture_prop.TexturePropPredictor] and
    [plan2scene.crop_select.util] are imported by [process] but their code
    is not available; they are modelled from the specification.  Embedding
    vectors and image crops are opaque values, and so are the two networks:
    [gnn] stands for the propagation model's forward pass on one graph and
    [synthesize] for the texture synthesis network. *)

Section SpecModel.
Context {Embedding Crop : Type}.

(** Modelled from the spec: a crop with its provenance tag (the image
    description class is missing). *)
Record ImageDescription := {
  image : Crop;
  source : ImageSource
}.

(** Modelled from the spec: "Surface: ... has an optional image crop and an
    optional embedding vector; tagged with provenance" (the house parser is
    missing). *)
Record Surface := {
  crop : option ImageDescription;
  embedding : option Embedding
}.

(** Modelled from the spec: one node per surface, carrying the surface's
    embedding or a placeholder, and the ground-truth target only when the
    generator includes targets (the graph generators are missing).  Edges
    are left to [gnn], which is given the whole graph. *)
Record Node := {
  node_feature : option Embedding;
  node_target : option Embedding
}.

(** Modelled from the spec: the dataset wraps the graph generator and
    indexes the houses it was built on (the house dataset is missing). *)
Record SpecHouseDataset := {
  house_keys : list string;
  graph_generator : GraphGenerator
}.

Variable gnn : TexturePropPredictor → gmap string Node → string → Embedding.
Variable synthesize : TextureGenPredictor → Embedding → Crop.

(** Modelled from the spec: "Graph generator -- converts a collection of
    houses into graph-structured batches (nodes = surfaces ...)". *)
Definition generate (g : GraphGenerator) (h : gmap string Surface) : gmap string Node :=
  (λ s, {| node_feature := embedding s;
           node_target := if include_target g then embedding s else None |}) <$> h.

Definition spec_new_HouseDataset (hs : gmap string (gmap string Surface))
    (g : GraphGenerator) : SpecHouseDataset :=
  {| house_keys := (map_to_list hs).*1; graph_generator := g |}.

(** Modelled from the spec: "a standard batched-loading interface": houses
    are taken [bs] at a time, in order; the last batch may be shorter.  A
    batch size of zero, which the loader of the framework rejects, gives no
    batch here. *)
Definition spec_dataloader_len (ds : SpecHouseDataset) (bs : nat)
    (hs : gmap string (gmap string Surface)) : nat :=
  (length (house_keys ds) + bs - 1) / bs.

Definition spec_dataloader_batch (ds : SpecHouseDataset) (bs : nat)
    (hs : gmap string (gmap string Surface)) (i : nat)
  : list (string * gmap string Node) :=
  omap (λ k, (λ h, (k, generate (graph_generator ds) h)) <$> hs !! k)
       (take bs (drop (i * bs) (house_keys ds))).

(** Modelled from the spec: "run the propagation model ..., obtain
    per-surface predicted embeddings" (the propagation predictor is
    missing): one predicted embedding for every node of every graph. *)
Definition spec_predict (p : TexturePropPredictor)
    (batch : list (string * gmap string Node))
  : list (string * gmap string Embedding) :=
  (λ kg, (kg.1, map_imap (λ sk _, Some (gnn p kg.2 sk)) kg.2)) <$> batch.

Definition set_embedding (s : Surface) (e : Embedding) : Surface :=
  {| crop := crop s; embedding := Some e |}.

(** Modelled from the spec: "an embedding is only overwritten by
    propagation if keep_existing_predictions is false or the surface
    currently lacks one". *)
Definition update_surface (keep_existing_predictions : bool)
    (prediction : option Embedding) (s : Surface) : Surface :=
  match prediction with
  | Some e =>
      if keep_existing_predictions && bool_decide (is_Some (embedding s)) then s
      else set_embedding s e
  | None => s
  end.

Definition update_house (keep_existing_predictions : bool)
    (predictions : gmap string Embedding) (h : gmap string Surface)
  : gmap string Surface :=
  map_imap (λ sk s, Some (update_surface keep_existing_predictions (predictions !! sk) s)) h.

(** Modelled from the spec: "merge them into house state via the embedding
    updater, respecting the keep-existing-predictions flag" (the updater of
    [plan2scene.texture_prop.utils] is missing). *)
Definition spec_update_embeddings (conf : ConfigManager)
    (hs : gmap string (gmap string Surface))
    (batch : list (string * gmap string Node))
    (output : list (string * gmap string Embedding))
    (keep_existing_predictions : bool) : gmap string (gmap string Surface) :=
  foldl (λ acc kp, alter (update_house keep_existing_predictions kp.2) kp.1 acc) hs output.

(** Modelled from the spec: "every surface's embedding is cleared"
    ([clear_predictions] of [plan2scene.texture_prop.utils] is missing). *)
Definition clear_surface (s : Surface) : Surface :=
  {| crop := crop s; embedding := None |}.

Definition spec_clear_predictions (conf : ConfigManager)
    (hs : gmap string (gmap string Surface)) : gmap string (gmap string Surface) :=
  (λ h : gmap string Surface, clear_surface <$> h) <$> hs.

(** Modelled from the spec: "fill in texture crops for surfaces whose
    embeddings were just propagated, skipping surfaces that already have
    textures when requested" ([fill_textures] of
    [plan2scene.crop_select.util] is missing): a surface that holds an
    embedding gets a crop synthesized from it, tagged with the image
    source, unless skipping is requested and it already has one. *)
Definition fill_surface (predictor : TextureGenPredictor) (image_source : ImageSource)
    (skip_existing_textures : bool) (s : Surface) : Surface :=
  match embedding s with
  | Some e =>
      if skip_existing_textures && bool_decide (is_Some (crop s)) then s
      else {| crop := Some {| image := synthesize predictor e; source := image_source |};
              embedding := embedding s |}
  | None => s
  end.

Definition spec_fill_textures (conf : ConfigManager)
    (hs : gmap string (gmap string Surface)) (log : bool)
    (predictor : TextureGenPredictor) (image_source : ImageSource)
    (skip_existing_textures : bool) : gmap string (gmap string Surface) :=
  (λ h : gmap string Surface,
     fill_surface predictor image_source skip_existing_textures <$> h) <$> hs.

#[local] Instance spec_collaborators : Collaborators := {|
  House := gmap string Surface;
  HouseDataset := SpecHouseDataset;
  Batch := list (string * gmap string Node);
  Output := list (string * gmap string Embedding);
  new_HouseDataset := spec_new_HouseDataset;
  dataloader_len := spec_dataloader_len;
  dataloader_batch := spec_dataloader_batch;
  batch_to := λ b _, b;
  predict := spec_predict;
  update_embeddings := spec_update_embeddings;
  clear_predictions := spec_clear_predictions;
  fill_textures := spec_fill_textures
|}.

(** [process] over the modelled collaborators. *)
Definition spec_run_process := run_process (H := spec_collaborators).

(** Every embedding held in [hs] is still held, unchanged, in [hs']. *)
Definition embeddings_kept (hs hs' : gmap string (gmap string Surface)) : Prop :=
  ∀ hk h sk s e,
    hs !! hk = Some h → h !! sk = Some s → embedding s = Some e →
    ∃ h' s', hs' !! hk = Some h' ∧ h' !! sk = Some s' ∧ embedding s' = Some e.

(** Every surface of the house holds an embedding. *)
Definition all_embedded (h : gmap string Surface) : Prop :=
  ∀ sk s, h !! sk = Some s → is_Some (embedding s).

(** [hs'] has every house of [hs], with the same surfaces, and a surface
    that held an embedding in [hs] holds one in [hs']. *)
Definition grows (hs hs' : gmap string (gmap string Surface)) : Prop :=
  ∀ hk h, hs !! hk = Some h →
    ∃ h', hs' !! hk = Some h' ∧ dom h' = dom h
          ∧ ∀ sk s s', h !! sk = Some s → h' !! sk = Some s' →
              is_Some (embedding s) → is_Some (embedding s').

End SpecModel.

Arguments ImageDescription : clear implicits.
Arguments Surface : clear implicits.
Arguments Node : clear implicits.

(** ** What a run looks like

    Pure descriptions of the pieces of a run of [process], used to state
    what the call log and the final houses are. *)

Definition is_predict (c : Call) : bool :=
  match c with call_predict _ _ => true | _ => false end.

Definition is_update_embeddings (c : Call) : bool :=
  match c with call_update_embeddings _ _ => true | _ => false end.

Definition is_fill_textures (c : Call) : bool :=
  match c with call_fill_textures _ _ _ => true | _ => false end.

(** The calls of the batch loop that do the work of a batch. *)
Definition is_batch_work (c : Call) : bool :=
  is_predict c || is_update_embeddings c.

(** Calls that run a network: propagation or synthesis. *)
Definition is_inference (c : Call) : bool :=
  is_predict c || is_fill_textures c.

(** The constructor call that yields a given generator. *)
Definition generator_call (g : GraphGenerator) : Call :=
  match g with
  | get_graph_generator _ gc b => call_get_graph_generator gc b
  | InferenceHGG _ b => call_InferenceHGG b
  end.

(** The calls made up to the flag assertion (source lines 32-39). *)
Definition setup_calls (conf : ConfigManager) (checkpoint_path : string) : list Call :=
  [ call_load_conf_eval (texture_synth_conf (texture_gen conf));
    call_TextureGenPredictor (load_conf_eval (texture_synth_conf (texture_gen conf)))
      (rgb_median_emb (texture_gen conf));
    call_load_checkpoint TextureGen (texture_gen_checkpoint_path (texture_gen conf));
    call_TexturePropPredictor;
    call_load_checkpoint TextureProp checkpoint_path ].

(** The two predictors as they are once their checkpoints are loaded. *)
Definition loaded_tg_predictor (conf : ConfigManager) : TextureGenPredictor :=
  {| tg_conf := load_conf_eval (texture_synth_conf (texture_gen conf));
     tg_rgb_median_emb := rgb_median_emb (texture_gen conf);
     tg_checkpoint := Some (texture_gen_checkpoint_path (texture_gen conf)) |}.

Definition loaded_tp_predictor (conf : ConfigManager) (checkpoint_path : string)
  : TexturePropPredictor :=
  {| tp_conf := conf; tp_prop_conf := texture_prop conf;
     tp_checkpoint := Some checkpoint_path |}.

(** The generator the if-chain of [process] (source lines 44-49) yields. *)
Definition selected_generator (conf : ConfigManager) (t v : bool) : GraphGenerator :=
  if t then get_graph_generator conf (train_graph_generator (texture_prop conf)) false
  else if v then get_graph_generator conf (val_graph_generator (texture_prop conf)) false
  else InferenceHGG conf false.

Definition is_generator_call (c : Call) : bool :=
  match c with
  | call_get_graph_generator _ _ | call_InferenceHGG _ => true
  | _ => false
  end.

Definition is_HouseDataset_call (c : Call) : bool :=
  match c with call_HouseDataset _ => true | _ => false end.

(** The work calls of batches [i, ..., i+r-1], in order. *)
Definition batch_work_calls (conf : ConfigManager) (keep : bool) (i r : nat) : list Call :=
  flat_map (λ k, [call_predict k (device (texture_prop conf));
                  call_update_embeddings k keep]) (seq i r).

Section RunShape.
Context `{Collaborators}.

(** One round of the batch loop on the houses: batch [i] is built from the
    current houses, the model predicts on it, and the prediction is merged
    with the keep flag. *)
Definition batch_step (conf : ConfigManager) (p : TexturePropPredictor)
    (dl : DataLoader) (keep_existing_predictions : bool)
    (hs : gmap string House) (i : nat) : gmap string House :=
  let batch := dataloader_batch (dataset dl) (batch_size dl) hs i in
  update_embeddings conf hs batch
    (predict p (batch_to batch (device (texture_prop conf))))
    keep_existing_predictions.

(** The houses after rounds [i, i+1, ..., i+r-1]. *)
Fixpoint loop_houses (conf : ConfigManager) (p : TexturePropPredictor)
    (dl : DataLoader) (keep : bool) (hs : gmap string House) (i r : nat)
  : gmap string House :=
  match r with
  | 0 => hs
  | S r' => loop_houses conf p dl keep (batch_step conf p dl keep hs i) (S i) r'
  end.

(** The calls logged by rounds [i, ..., i+r-1]. *)
Fixpoint loop_calls (conf : ConfigManager) (p : TexturePropPredictor)
    (dl : DataLoader) (keep : bool) (hs : gmap string House) (i r : nat)
  : list Call :=
  match r with
  | 0 => []
  | S r' =>
      [ call_logging_info
          (batch_message i (dataloader_len (dataset dl) (batch_size dl) hs));
        call_predict i (device (texture_prop conf));
        call_update_embeddings i keep ]
      ++ loop_calls conf p dl keep (batch_step conf p dl keep hs i) (S i) r'
  end.

(** The loader [process] builds on houses [hs] with generator [g]. *)
Definition the_dataloader (conf : ConfigManager) (hs : gmap string House)
    (g : GraphGenerator) : DataLoader :=
  {| dataset := new_HouseDataset hs g; batch_size := train_bs (texture_prop conf) |}.

(** The houses the batch loop starts from. *)
Definition entry_houses (conf : ConfigManager) (keep : bool) (hs : gmap string House)
  : gmap string House :=
  if keep then hs else clear_predictions conf hs.

(** The number of batches of the run. *)
Definition batch_count (conf : ConfigManager) (keep : bool) (hs : gmap string House)
    (g : GraphGenerator) : nat :=
  dataloader_len (new_HouseDataset hs g) (train_bs (texture_prop conf))
    (entry_houses conf keep hs).

End RunShape.

(** ** Example inputs *)

Definition example_conf : ConfigManager := {|
  texture_gen := {| texture_synth_conf := "conf/texture_synth.yml";
                    rgb_median_emb := false;
                    texture_gen_checkpoint_path := "texture_synth.ckpt" |};
  texture_prop := {| device := "cpu";
                     train_graph_generator := "train_graph_generator";
                     val_graph_generator := "val_graph_generator";
                     train_bs := 1 |}
|}.

Definition example_gnn (p : TexturePropPredictor) (g : gmap string (Node Z))
    (sk : string) : Z := 7%Z.

Definition example_synthesize (p : TextureGenPredictor) (e : Z) : Z := (e + 100)%Z.

Definition example_floor : Surface Z Z :=
  {| crop := Some {| image := 1%Z; source := OBSERVED |}; embedding := Some 5%Z |}.

Definition example_wall : Surface Z Z := {| crop := None; embedding := None |}.

Definition example_house1 : gmap string (Surface Z Z) :=
  {[ "floor" := example_floor; "wall" := example_wall ]}.

Definition example_house2 : gmap string (Surface Z Z) :=
  {[ "ceiling" := example_wall ]}.

Definition example_houses : gmap string (gmap string (Surface Z Z)) :=
  {[ "house1" := example_house1; "house2" := example_house2 ]}.

Definition example_run (keep_existing_predictions use_train_graph_generator
    use_val_graph_generator : bool) :=
  spec_run_process example_gnn example_synthesize example_conf example_houses
    "gnn.ckpt" keep_existing_predictions use_train_graph_generator
    use_val_graph_generator.

(** ** The checkpoint save reasons

    [code/src/plan2scene/common/trainer/save_reason.py]: an enumeration
    with two members, each with a string value. *)

Inductive SaveReason := REST_MDOEL | INTERVAL.

(** [member.value] *)
Definition SaveReason_value (r : SaveReason) : string :=
  match r with
  | REST_MDOEL => "base_model"
  | INTERVAL => "interval"
  end.

(** [member.name] *)
Definition SaveReason_name (r : SaveReason) : string :=
  match r with
  | REST_MDOEL => "REST_MDOEL"
  | INTERVAL => "INTERVAL"
  end.

(** [list(SaveReason)]: the members in definition order. *)
Definition SaveReason_members : list SaveReason := [REST_MDOEL; INTERVAL].

(** [SaveReason(value)]: the first member with that value; [None] stands
    for the [ValueError] raised when there is none. *)
Definition SaveReason_of_value (v : string) : option SaveReason :=
  List.find (λ r, bool_decide (SaveReason_value r = v)) SaveReason_members.

(** [SaveReason[name]]: [None] stands for the [KeyError]. *)
Definition SaveReason_of_name (n : string) : option SaveReason :=
  List.find (λ r, bool_decide (SaveReason_name r = n)) SaveReason_members.

(** ** The script around [process]

    The [__main__] block of [gnn_texture_prop.py], from the point where
    the command line has been parsed and the configuration processed
    (source lines 91-131).  The file system is the collaborators' own
    state: the script asks whether a path exists, creates directories,
    and hands paths to the loaders and savers.  The directory-creating
    calls and [process] are the calls that can raise here; the parser, the
    loaders and the savers are taken to return. *)

(** [os.path.join] for POSIX paths: a component that starts with the
    separator discards what came before; otherwise components are glued
    with one separator unless the path so far is empty or ends with one. *)
Definition starts_with_sep (s : string) : bool :=
  match s with
  | String c _ => bool_decide (c = "/"%char)
  | EmptyString => false
  end.

Fixpoint ends_with_sep (s : string) : bool :=
  match s with
  | EmptyString => false
  | String c EmptyString => bool_decide (c = "/"%char)
  | String _ s' => ends_with_sep s'
  end.

Definition join2 (path b : string) : string :=
  if starts_with_sep b then b
  else if bool_decide (path = "") || ends_with_sep path then path +:+ b
  else path +:+ "/" +:+ b.

Definition osp_join (a : string) (p : list string) : string := foldl join2 a p.

(** The parsed command line (source lines 91-97). *)
Record Args := {
  output_path : string;
  input_path : string;
  split : string;
  args_checkpoint_path : string;
  train_graph_generator_flag : bool;      (* --train-graph-generator *)
  val_graph_generator_flag : bool;        (* --val-graph-generator *)
  keep_existing_predictions_flag : bool   (* --keep-existing-predictions *)
}.

(** The fields of the configuration that the script reads itself. *)
Record DataPaths := {
  arch_path_spec : string;        (* conf.data_paths.arch_path_spec *)
  photoroom_path_spec : string    (* conf.data_paths.photoroom_path_spec *)
}.

Record ScriptConf := {
  process_conf : ConfigManager;   (* what [process] reads *)
  data_paths : DataPaths;
  drop_fraction : string          (* conf.drop_fraction *)
}.

(** [spec.format(name=value, ...)], kept symbolic. *)
Record Formatted := {
  format_spec : string;
  format_kwargs : list (string * string)
}.

(** What the script imports and calls besides [process]. *)
Class ScriptCollaborators `{Collaborators} := {
  FS : Type;
  (* osp.exists(path) *)
  osp_exists : FS → string → bool;
  (* os.makedirs(path), os.mkdir(path): [None] when the call raises *)
  os_makedirs : FS → string → option FS;
  os_mkdir : FS → string → option FS;
  (* conf.get_data_list(split) *)
  get_data_list : FS → ScriptConf → string → list string;
  (* parse_houses(conf, house_keys, house_path_spec=..., photoroom_csv_path_spec=...) *)
  parse_houses :
    FS → ScriptConf → list string → Formatted → Formatted → gmap string House;
  (* load_house_crops(conf, house, path): mutates the house *)
  load_house_crops : FS → ScriptConf → House → string → House;
  (* load_house_texture_embeddings(house, path): mutates the house *)
  load_house_texture_embeddings : FS → House → string → House;
  (* save_house_crops(house, path), save_house_texture_embeddings(house, path) *)
  save_house_crops : FS → House → string → FS;
  save_house_texture_embeddings : FS → House → string → FS;
  (* houses.items(): the items of the dictionary in its insertion order.  A
     finite map does not record that order, so it is the collaborators' to
     give; every item comes exactly once. *)
  dict_items : gmap string House → list (string * House);
  dict_items_perm : ∀ m, dict_items m ≡ₚ map_to_list m
}.

Inductive ScriptCall `{Collaborators} :=
| call_osp_exists (path : string)
| call_os_makedirs (path : string)
| call_os_mkdir (path : string)
| call_get_data_list (split : string)
| call_parse_houses (house_keys : list string)
    (house_path_spec photoroom_csv_path_spec : Formatted)
| call_script_logging_info (msg : string)
| call_load_house_crops (house_key path : string)
| call_load_house_texture_embeddings (house_key path : string)
| in_process (c : Call)
| call_save_house_crops (house_key : string) (house : House) (path : string)
| call_save_house_texture_embeddings (house_key : string) (house : House)
    (path : string).

Inductive ScriptException := OSError | ProcessRaised (e : Exception).

Inductive ScriptResult (A : Type) :=
| Completed (a : A)
| Failed (e : ScriptException).
Arguments Completed {A} a.
Arguments Failed {A} e.

Record ScriptWorld `{ScriptCollaborators} := {
  fs : FS;
  script_houses : gmap string House;
  script_calls : list ScriptCall
}.

Definition SM `{ScriptCollaborators} (A : Type) : Type :=
  ScriptWorld → ScriptResult A * ScriptWorld.

Section Script.
Context `{ScriptCollaborators}.

Definition sret {A} (a : A) : SM A := λ w, (Completed a, w).

Definition sbind {A B} (m : SM A) (k : A → SM B) : SM B :=
  λ w, match m w with
       | (Completed a, w') => k a w'
       | (Failed e, w') => (Failed e, w')
       end.

Definition slog (c : ScriptCall) : SM unit :=
  λ w, (Completed tt,
        {| fs := fs w; script_houses := script_houses w;
           script_calls := script_calls w ++ [c] |}).

End Script.

Notation "x <~ m ;; k" := (sbind m (λ x, k))
  (at level 100, m at next level, right associativity).
Notation "m ;;~ k" := (sbind m (λ _, k))
  (at level 100, right associativity).

Section ScriptActions.
Context `{ScriptCollaborators}.

Definition osp_exists_ (path : string) : SM bool :=
  slog (call_osp_exists path) ;;~
  λ w, (Completed (osp_exists (fs w) path), w).

(** A directory-creating call: the file system changes, or the call raises. *)
Definition create_ (create : FS → string → option FS) (c : ScriptCall)
    (path : string) : SM unit :=
  slog c ;;~
  λ w, match create (fs w) path with
       | Some fs' =>
           (Completed tt,
            {| fs := fs'; script_houses := script_houses w;
               script_calls := script_calls w |})
       | None => (Failed OSError, w)
       end.

Definition os_makedirs_ (path : string) : SM unit :=
  create_ os_makedirs (call_os_makedirs path) path.

Definition os_mkdir_ (path : string) : SM unit :=
  create_ os_mkdir (call_os_mkdir path) path.

Definition get_data_list_ (conf : ScriptConf) (split : string) : SM (list string) :=
  slog (call_get_data_list split) ;;~
  λ w, (Completed (get_data_list (fs w) conf split), w).

(** [parse_houses] yields the houses dictionary of the script. *)
Definition parse_houses_ (conf : ScriptConf) (house_keys : list string)
    (house_path_spec photoroom_csv_path_spec : Formatted) : SM unit :=
  slog (call_parse_houses house_keys house_path_spec photoroom_csv_path_spec) ;;~
  λ w, (Completed tt,
        {| fs := fs w;
           script_houses :=
             parse_houses (fs w) conf house_keys house_path_spec photoroom_csv_path_spec;
           script_calls := script_calls w |}).

Definition script_logging_info (msg : string) : SM unit :=
  slog (call_script_logging_info msg).

(** The loaders mutate the house object, which the dictionary holds. *)
Definition load_house_crops_ (conf : ScriptConf) (house_key : string) (house : House)
    (path : string) : SM House :=
  slog (call_load_house_crops house_key path) ;;~
  λ w, let house' := load_house_crops (fs w) conf house path in
       (Completed house',
        {| fs := fs w; script_houses := <[house_key := house']> (script_houses w);
           script_calls := script_calls w |}).

Definition load_house_texture_embeddings_ (house_key : string) (house : House)
    (path : string) : SM House :=
  slog (call_load_house_texture_embeddings house_key path) ;;~
  λ w, let house' := load_house_texture_embeddings (fs w) house path in
       (Completed house',
        {| fs := fs w; script_houses := <[house_key := house']> (script_houses w);
           script_calls := script_calls w |}).

Definition save_house_crops_ (house_key : string) (house : House) (path : string)
  : SM unit :=
  slog (call_save_house_crops house_key house path) ;;~
  λ w, (Completed tt,
        {| fs := save_house_crops (fs w) house path;
           script_houses := script_houses w; script_calls := script_calls w |}).

Definition save_house_texture_embeddings_ (house_key : string) (house : House)
    (path : string) : SM unit :=
  slog (call_save_house_texture_embeddings house_key house path) ;;~
  λ w, (Completed tt,
        {| fs := save_house_texture_embeddings (fs w) house path;
           script_houses := script_houses w; script_calls := script_calls w |}).

(** The call to [process]: it works on the script's houses dictionary; its
    calls are appended to the script's log, and what it raises is passed on. *)
Definition process_ (conf : ConfigManager) (checkpoint_path : string)
    (keep_existing_predictions use_train_graph_generator use_val_graph_generator : bool)
  : SM unit :=
  λ w, let r := run_process conf (script_houses w) checkpoint_path
                  keep_existing_predictions use_train_graph_generator
                  use_val_graph_generator in
       let w' := {| fs := fs w; script_houses := houses r.2;
                    script_calls := script_calls w ++ (in_process <$> calls r.2) |} in
       match r.1 with
       | Returned _ => (Completed tt, w')
       | Raised e => (Failed (ProcessRaised e), w')
       end.

(** [for i, (house_key, house) in enumerate(houses.items()): body], over the
    items the dictionary holds when the loop starts, in the order
    [houses.items()] yields them. *)
Fixpoint for_items (body : nat → string → House → SM unit)
    (i : nat) (items : list (string * House)) : SM unit :=
  match items with
  | [] => sret tt
  | (house_key, house) :: rest =>
      body i house_key house ;;~ for_items body (S i) rest
  end.

Definition for_enumerate_items (body : nat → string → House → SM unit) : SM unit :=
  λ w, for_items body 0 (dict_items (script_houses w)) w.

(** ["[%d/%d] Loading %s" % (i, n, house_key)] and the same for saving. *)
Definition loading_message (i n : nat) (house_key : string) : string :=
  "[" +:+ pretty i +:+ "/" +:+ pretty n +:+ "] Loading " +:+ house_key.

Definition saving_message (i n : nat) (house_key : string) : string :=
  "[" +:+ pretty i +:+ "/" +:+ pretty n +:+ "] Saving " +:+ house_key.

Definition len_houses : SM nat := λ w, (Completed (size (script_houses w)), w).

(** The script, source lines 91-131. *)
Definition main (conf : ScriptConf) (args : Args) : SM unit :=
  let output_path := output_path args in
  let input_path := input_path args in
  let split := split args in
  let use_train_graph_generator := train_graph_generator_flag args in
  let use_val_graph_generator := val_graph_generator_flag args in
  let checkpoint_path := args_checkpoint_path args in
  let keep_existing_predictions := keep_existing_predictions_flag args in
  (e <~ osp_exists_ output_path ;;
   if negb e then os_makedirs_ output_path else sret tt) ;;~
  (e <~ osp_exists_ (osp_join output_path ["surface_texture_embeddings"]) ;;
   if negb e then os_mkdir_ (osp_join output_path ["surface_texture_embeddings"])
   else sret tt) ;;~
  (e <~ osp_exists_ (osp_join output_path ["texture_crops"]) ;;
   if negb e then os_mkdir_ (osp_join output_path ["texture_crops"]) else sret tt) ;;~
  house_keys <~ get_data_list_ conf split ;;
  parse_houses_ conf house_keys
    {| format_spec := arch_path_spec (data_paths conf);
       format_kwargs := [("split", split); ("house_key", "{house_key}")] |}
    {| format_spec := photoroom_path_spec (data_paths conf);
       format_kwargs := [("split", split); ("drop_fraction", drop_fraction conf);
                         ("house_key", "{house_key}")] |} ;;~
  for_enumerate_items (λ i house_key house,
    n <~ len_houses ;;
    script_logging_info (loading_message i n house_key) ;;~
    house <~ load_house_crops_ conf house_key house
               (osp_join input_path ["texture_crops"; house_key]) ;;
    house <~ load_house_texture_embeddings_ house_key house
               (osp_join input_path ["surface_texture_embeddings"; house_key +:+ ".json"]) ;;
    sret tt) ;;~
  process_ (process_conf conf) checkpoint_path keep_existing_predictions
    use_train_graph_generator use_val_graph_generator ;;~
  for_enumerate_items (λ i house_key house,
    n <~ len_houses ;;
    script_logging_info (saving_message i n house_key) ;;~
    save_house_crops_ house_key house
      (osp_join output_path ["texture_crops"; house_key]) ;;~
    save_house_texture_embeddings_ house_key house
      (osp_join output_path ["surface_texture_embeddings"; house_key +:+ ".json"])).

(** Running the script on a file system, from an empty log. *)
Definition run_main (conf : ScriptConf) (args : Args) (fs0 : FS)
  : ScriptResult unit * ScriptWorld :=
  main conf args {| fs := fs0; script_houses := ∅; script_calls := [] |}.

End ScriptActions.

(** ** What a run of the script looks like *)

(** The paths the script builds under a root directory. *)
Definition embeddings_dir (root : string) : string :=
  osp_join root ["surface_texture_embeddings"].

Definition crops_dir (root : string) : string :=
  osp_join root ["texture_crops"].

Definition crops_path (root house_key : string) : string :=
  osp_join root ["texture_crops"; house_key].

Definition embeddings_path (root house_key : string) : string :=
  osp_join root ["surface_texture_embeddings"; house_key +:+ ".json"].

(** What [os.path.join] puts in front of a relative component after [root]. *)
Definition root_prefix (root : string) : string :=
  if bool_decide (root = "") || ends_with_sep root then root else root +:+ "/".

Section ScriptShape.
Context `{ScriptCollaborators}.

Definition is_create_call (c : ScriptCall) : bool :=
  match c with
  | call_os_makedirs _ | call_os_mkdir _ => true
  | _ => false
  end.

Definition is_fs_call (c : ScriptCall) : bool :=
  match c with
  | call_osp_exists _ | call_os_makedirs _ | call_os_mkdir _ => true
  | _ => false
  end.

Definition is_load_call (c : ScriptCall) : bool :=
  match c with
  | call_load_house_crops _ _ | call_load_house_texture_embeddings _ _ => true
  | _ => false
  end.

Definition is_save_call (c : ScriptCall) : bool :=
  match c with
  | call_save_house_crops _ _ _ | call_save_house_texture_embeddings _ _ _ => true
  | _ => false
  end.

Definition is_in_process (c : ScriptCall) : bool :=
  match c with in_process _ => true | _ => false end.

(** [if not osp.exists(path): create(path)] on the file system, and the
    calls it makes. *)
Definition ensure_fs (create : FS → string → option FS) (fs0 : FS) (path : string)
  : option FS :=
  if osp_exists fs0 path then Some fs0 else create fs0 path.

Definition ensure_calls (mk : string → ScriptCall) (fs0 : FS) (path : string)
  : list ScriptCall :=
  call_osp_exists path :: (if osp_exists fs0 path then [] else [mk path]).

(** The file system after the three guarded creations of source lines
    99-106, when none of them raises. *)
Definition setup_fs (fs0 : FS) (out : string) : option FS :=
  match ensure_fs os_makedirs fs0 out with
  | Some fs1 =>
      match ensure_fs os_mkdir fs1 (embeddings_dir out) with
      | Some fs2 => ensure_fs os_mkdir fs2 (crops_dir out)
      | None => None
      end
  | None => None
  end.

(** The calls of source lines 99-106, up to the first creation that raises. *)
Definition setup_log (fs0 : FS) (out : string) : list ScriptCall :=
  ensure_calls call_os_makedirs fs0 out
  ++ match ensure_fs os_makedirs fs0 out with
     | Some fs1 =>
         ensure_calls call_os_mkdir fs1 (embeddings_dir out)
         ++ match ensure_fs os_mkdir fs1 (embeddings_dir out) with
            | Some fs2 => ensure_calls call_os_mkdir fs2 (crops_dir out)
            | None => []
            end
     | None => []
     end.

Definition arch_spec (conf : ScriptConf) (args : Args) : Formatted :=
  {| format_spec := arch_path_spec (data_paths conf);
     format_kwargs := [("split", split args); ("house_key", "{house_key}")] |}.

Definition photoroom_spec (conf : ScriptConf) (args : Args) : Formatted :=
  {| format_spec := photoroom_path_spec (data_paths conf);
     format_kwargs := [("split", split args); ("drop_fraction", drop_fraction conf);
                       ("house_key", "{house_key}")] |}.

(** The houses [parse_houses] yields on file system [fs1]. *)
Definition parsed_houses (fs1 : FS) (conf : ScriptConf) (args : Args)
  : gmap string House :=
  parse_houses fs1 conf (get_data_list fs1 conf (split args))
    (arch_spec conf args) (photoroom_spec conf args).

(** One house after its crops and then its embeddings were loaded. *)
Definition load_one (fs1 : FS) (conf : ScriptConf) (root house_key : string)
    (house : House) : House :=
  load_house_texture_embeddings fs1
    (load_house_crops fs1 conf house (crops_path root house_key))
    (embeddings_path root house_key).

(** The dictionary after the loading loop went through [items]. *)
Fixpoint load_houses (fs1 : FS) (conf : ScriptConf) (root : string)
    (hs : gmap string House) (items : list (string * House)) : gmap string House :=
  match items with
  | [] => hs
  | (k, h) :: rest =>
      load_houses fs1 conf root (<[k := load_one fs1 conf root k h]> hs) rest
  end.

(** The calls of the loading loop on [items], counting from [i]. *)
Fixpoint load_log (fs1 : FS) (conf : ScriptConf) (root : string)
    (hs : gmap string House) (i : nat) (items : list (string * House))
  : list ScriptCall :=
  match items with
  | [] => []
  | (k, h) :: rest =>
      [ call_script_logging_info (loading_message i (size hs) k);
        call_load_house_crops k (crops_path root k);
        call_load_house_texture_embeddings k (embeddings_path root k) ]
      ++ load_log fs1 conf root (<[k := load_one fs1 conf root k h]> hs) (S i) rest
  end.

(** The houses [process] is run on. *)
Definition loaded_houses (fs1 : FS) (conf : ScriptConf) (args : Args)
  : gmap string House :=
  load_houses fs1 conf (input_path args) (parsed_houses fs1 conf args)
    (dict_items (parsed_houses fs1 conf args)).

(** The run of [process] inside the script. *)
Definition script_process_run (fs1 : FS) (conf : ScriptConf) (args : Args)
  : Result unit * World :=
  run_process (process_conf conf) (loaded_houses fs1 conf args)
    (args_checkpoint_path args) (keep_existing_predictions_flag args)
    (train_graph_generator_flag args) (val_graph_generator_flag args).

(** The two save calls for one house. *)
Definition save_calls_of (root : string) (item : string * House) : list ScriptCall :=
  [ call_save_house_crops item.1 item.2 (crops_path root item.1);
    call_save_house_texture_embeddings item.1 item.2 (embeddings_path root item.1) ].

(** The calls of the saving loop on [items], counting from [i]. *)
Fixpoint save_log (root : string) (n i : nat) (items : list (string * House))
  : list ScriptCall :=
  match items with
  | [] => []
  | item :: rest =>
      call_script_logging_info (saving_message i n item.1)
      :: save_calls_of root item ++ save_log root n (S i) rest
  end.

(** The file system after the saving loop went through [items]. *)
Fixpoint save_fs (root : string) (fs1 : FS) (items : list (string * House)) : FS :=
  match items with
  | [] => fs1
  | (k, h) :: rest =>
      save_fs root
        (save_house_texture_embeddings
           (save_house_crops fs1 h (crops_path root k)) h (embeddings_path root k))
        rest
  end.

(** The calls up to and including the loading loop. *)
Definition before_process_log (fs0 fs1 : FS) (conf : ScriptConf) (args : Args)
  : list ScriptCall :=
  setup_log fs0 (output_path args)
  ++ [ call_get_data_list (split args);
       call_parse_houses (get_data_list fs1 conf (split args))
         (arch_spec conf args) (photoroom_spec conf args) ]
  ++ load_log fs1 conf (input_path args) (parsed_houses fs1 conf args) 0
       (dict_items (parsed_houses fs1 conf args)).

End ScriptShape.

(** The progress and prediction calls of [process]. *)
Definition is_logging_or_predict (c : Call) : bool :=
  match c with
  | call_logging_info _ | call_predict _ _ => true
  | _ => false
  end.

Definition is_clear_predictions (c : Call) : bool :=
  match c with call_clear_predictions => true | _ => false end.

(** ** Example inputs for the script

    A file system that is the set of existing paths; [os.makedirs]
    rejects the empty path; the houses were inserted in the order house2,
    house1. *)

Definition example_script_collaborators
  : @ScriptCollaborators (spec_collaborators example_gnn example_synthesize) := {|
  FS := gset string;
  osp_exists := λ fs0 p, bool_decide (p ∈ fs0);
  os_makedirs := λ fs0 p, if bool_decide (p = "") then None else Some ({[ p ]} ∪ fs0);
  os_mkdir := λ fs0 p, if bool_decide (p ∈ fs0) then None else Some ({[ p ]} ∪ fs0);
  get_data_list := λ _ _ _, ["house1"; "house2"];
  parse_houses := λ _ _ _ _ _,
    (example_houses
     : gmap string (@House (spec_collaborators example_gnn example_synthesize)));
  load_house_crops := λ _ _ h _, h;
  load_house_texture_embeddings := λ _ h _, h;
  save_house_crops := λ fs0 _ p, {[ p ]} ∪ fs0;
  save_house_texture_embeddings := λ fs0 _ p, {[ p ]} ∪ fs0;
  dict_items := λ m, reverse (map_to_list m);
  dict_items_perm := λ m, reverse_Permutation (map_to_list m)
|}.

Definition example_script_conf : ScriptConf := {|
  process_conf := example_conf;
  data_paths := {| arch_path_spec := "arch/{split}/{house_key}.json";
                   photoroom_path_spec := "photoroom/{split}/{drop_fraction}/{house_key}.csv" |};
  drop_fraction := "0.0"
|}.

Definition example_args (out : string) (train val : bool) : Args := {|
  output_path := out;
  input_path := "in";
  split := "test";
  args_checkpoint_path := "gnn.ckpt";
  train_graph_generator_flag := train;
  val_graph_generator_flag := val;
  keep_existing_predictions_flag := false
|}.

Definition example_main (out : string) (train val : bool) (fs0 : gset string) :=
  run_main (H0 := example_script_collaborators) example_script_conf
    (example_args out train val) fs0.


(** ** The shape of a run *)

Section RunLemmas.
Context `{Collaborators}.

Lemma for_batches_run conf p dl keep r : ∀ i w,
  for_batches dl (λ i batch,
      n <- len_dataloader dl ;;
      logging_info (batch_message i n) ;;
      output <- predict_ p i (device (texture_prop conf)) batch ;;
      update_embeddings_ conf i batch output keep) i r w
  = (Returned tt,
     {| houses := loop_houses conf p dl keep (houses w) i r;
        calls := calls w ++ loop_calls conf p dl keep (houses w) i r |}).
Proof.
  induction r as [|r IH]; intros i [hs cs]; simpl.
  - unfold ret. by rewrite app_nil_r.
  - unfold bind at 1. simpl.
    unfold bind at 1. unfold bind at 1. simpl.
    rewrite IH. simpl. unfold batch_step.
    by rewrite <- !app_assoc.
Qed.

Lemma propagation_pass_run conf p dl keep w :
  no_grad (for_enumerate dl (λ i batch,
      n <- len_dataloader dl ;;
      logging_info (batch_message i n) ;;
      output <- predict_ p i (device (texture_prop conf)) batch ;;
      update_embeddings_ conf i batch output keep)) w
  = let n := dataloader_len (dataset dl) (batch_size dl) (houses w) in
    (Returned tt,
     {| houses := loop_houses conf p dl keep (houses w) 0 n;
        calls := calls w ++ [call_no_grad_enter]
                 ++ loop_calls conf p dl keep (houses w) 0 n
                 ++ [call_no_grad_exit] |}).
Proof.
  destruct w as [hs cs]. unfold no_grad, for_enumerate.
  unfold bind at 1; simpl. unfold bind at 1; simpl.
  rewrite for_batches_run. simpl.
  by rewrite <- !app_assoc.
Qed.

Lemma process_returns conf hs cp keep t v :
  t && v = false →
  let g := selected_generator conf t v in
  let dl := the_dataloader conf hs g in
  let p := loaded_tp_predictor conf cp in
  let n := batch_count conf keep hs g in
  run_process conf hs cp keep t v =
  (Returned tt,
   {| houses :=
        fill_textures conf
          (loop_houses conf p dl keep (entry_houses conf keep hs) 0 n)
          true (loaded_tg_predictor conf) GNN_PROP keep;
      calls :=
        setup_calls conf cp
        ++ [generator_call g; call_HouseDataset g;
            call_DataLoader (train_bs (texture_prop conf))]
        ++ (if keep then [] else [call_clear_predictions])
        ++ [call_no_grad_enter]
        ++ loop_calls conf p dl keep (entry_houses conf keep hs) 0 n
        ++ [call_no_grad_exit; call_logging_info "Synthesizing textures";
            call_fill_textures true GNN_PROP keep] |}).
Proof.
  intros Htv. unfold run_process, process.
  unfold bind at 1; simpl. unfold bind at 1; simpl.
  unfold bind at 1; simpl. unfold bind at 1; simpl.
  unfold bind at 1; simpl. unfold bind at 1; simpl.
  rewrite Htv; simpl.
  assert (Hsel : ∀ w : World,
    (if t then get_graph_generator_ conf (train_graph_generator (texture_prop conf)) false
     else if v then get_graph_generator_ conf (val_graph_generator (texture_prop conf)) false
     else InferenceHGG_ conf false) w
    = (Returned (selected_generator conf t v),
       {| houses := houses w;
          calls := calls w ++ [generator_call (selected_generator conf t v)] |})).
  { intros w. unfold selected_generator. by destruct t, v. }
  unfold bind at 1. rewrite Hsel. simpl.
  unfold bind at 1; simpl. unfold bind at 1; simpl.
  unfold bind at 1.
  destruct keep; simpl.
  - unfold bind at 1. rewrite propagation_pass_run. simpl.
    unfold fill_textures_, logging_info, bind, get_houses, log_call, set_houses; simpl.
    unfold the_dataloader, batch_count, entry_houses, loaded_tp_predictor, loaded_tg_predictor.
    by rewrite <- !app_assoc.
  - unfold bind at 1. unfold clear_predictions_. simpl.
    rewrite propagation_pass_run. simpl.
    unfold fill_textures_, logging_info, bind, get_houses, log_call, set_houses; simpl.
    unfold the_dataloader, batch_count, entry_houses, loaded_tp_predictor, loaded_tg_predictor.
    by rewrite <- !app_assoc.
Qed.

Lemma process_aborts conf hs cp keep :
  run_process conf hs cp keep true true =
  (Raised AssertionError, {| houses := hs; calls := setup_calls conf cp |}).
Proof. reflexivity. Qed.


Lemma loop_houses_foldl conf p dl keep r : ∀ hs i,
  loop_houses conf p dl keep hs i r = foldl (batch_step conf p dl keep) hs (seq i r).
Proof. induction r as [|r IH]; intros hs i; simpl; [done | by rewrite IH]. Qed.

Lemma loop_calls_work conf p dl keep r : ∀ hs i,
  List.filter is_batch_work (loop_calls conf p dl keep hs i r)
  = batch_work_calls conf keep i r.
Proof.
  unfold batch_work_calls.
  induction r as [|r IH]; intros hs i; simpl; [done | by rewrite IH].
Qed.

Lemma loop_calls_filter_nil (q : Call → bool) conf p dl keep r :
  (∀ msg, q (call_logging_info msg) = false) →
  (∀ k d, q (call_predict k d) = false) →
  (∀ k b, q (call_update_embeddings k b) = false) →
  ∀ hs i, List.filter q (loop_calls conf p dl keep hs i r) = [].
Proof.
  intros Hl Hp Hu.
  induction r as [|r IH]; intros hs i; simpl; [done |].
  by rewrite Hl, Hp, Hu, IH.
Qed.

(** If an element satisfying [P] sits somewhere in [A ++ x :: B], while
    neither [x] nor anything in [A] satisfies [P], then [x] comes before it. *)
Lemma split_after {X} (P : X → bool) (x c : X) (A B post : list X) : ∀ pre,
  pre ++ c :: post = A ++ x :: B →
  (∀ y, In y A → P y = false) → P x = false → P c = true →
  In x pre.
Proof.
  induction A as [|a A IH]; intros [|q pre] Heq HA Hx Hc; simpl in *.
  - injection Heq as -> _. congruence.
  - injection Heq as -> _. by left.
  - injection Heq as -> _. rewrite HA in Hc by (by left). discriminate.
  - injection Heq as -> Heq. right. apply IH; auto.
Qed.

(** *** What the driver itself guarantees, whatever the collaborators do *)

(** C2: with [keep_existing_predictions = false], whenever the batch loop
    makes a prediction, [clear_predictions] was called before it, on the
    whole houses dictionary: the loop starts from the cleared houses. *)
Theorem C2_cleared_before_propagation conf hs cp t v pre c post :
  calls (run_process conf hs cp false t v).2 = pre ++ c :: post →
  is_predict c = true →
  In call_clear_predictions pre
  ∧ houses (run_process conf hs cp false t v).2
    = fill_textures conf
        (foldl (batch_step conf (loaded_tp_predictor conf cp)
                  (the_dataloader conf hs (selected_generator conf t v)) false)
           (clear_predictions conf hs)
           (seq 0 (batch_count conf false hs (selected_generator conf t v))))
        true (loaded_tg_predictor conf) GNN_PROP false.
Proof.
  destruct (t && v) eqn:Htv.
  - apply andb_true_iff in Htv as [-> ->]. rewrite process_aborts. simpl.
    intros Heq Hc. exfalso.
    assert (Hin : In c (setup_calls conf cp)).
    { rewrite Heq. apply in_or_app. right. by left. }
    simpl in Hin. destruct Hin as [<-|[<-|[<-|[<-|[<-|[]]]]]]; discriminate.
  - rewrite (process_returns _ _ _ _ _ _ Htv). simpl. intros Heq Hc. split.
    + change (?a :: ?b :: ?c0 :: ?d :: ?e :: ?f :: ?g :: ?h :: call_clear_predictions :: ?rest)
        with ([a; b; c0; d; e; f; g; h] ++ call_clear_predictions :: rest) in Heq.
      eapply (split_after is_predict); [symmetry; exact Heq | | done | done].
      intros y Hy. simpl in Hy.
      destruct Hy as [<-|[<-|[<-|[<-|[<-|[<-|[<-|[<-|[]]]]]]]]]; try done.
      unfold selected_generator. by destruct t, v.
    + by rewrite loop_houses_foldl.
Qed.

(** C3: with both graph-generator flags set the run ends in an assertion
    failure; no network was run, no embedding merged, and the houses are
    as they were. *)
Theorem C3_both_generators_abort conf hs cp keep :
  (run_process conf hs cp keep true true).1 = Raised AssertionError
  ∧ List.filter is_inference (calls (run_process conf hs cp keep true true).2) = []
  ∧ List.filter is_update_embeddings (calls (run_process conf hs cp keep true true).2) = []
  ∧ houses (run_process conf hs cp keep true true).2 = hs.
Proof. by rewrite process_aborts. Qed.


(** C4: every generator [process] hands to the dataset is
    built with [include_target = false], the train-time and
    validation-time ones included; the three policies differ in which
    generator is built, not in whether targets are included. *)
Theorem C4_no_policy_includes_targets conf hs cp keep t v g :
  In (call_HouseDataset g) (calls (run_process conf hs cp keep t v).2) →
  include_target g = false
  ∧ (g = get_graph_generator conf (train_graph_generator (texture_prop conf)) false
     ∨ g = get_graph_generator conf (val_graph_generator (texture_prop conf)) false
     ∨ g = InferenceHGG conf false).
Proof.
  destruct (t && v) eqn:Htv.
  - apply andb_true_iff in Htv as [-> ->]. rewrite process_aborts. simpl.
    intros [?|[?|[?|[?|[?|[]]]]]]; discriminate.
  - intros Hin.
    assert (Hds : List.filter is_HouseDataset_call (calls (run_process conf hs cp keep t v).2)
                  = [call_HouseDataset (selected_generator conf t v)]).
    { rewrite (process_returns _ _ _ _ _ _ Htv). cbn [snd calls].
      rewrite !List.filter_app, loop_calls_filter_nil by done.
      unfold selected_generator. by destruct t, v, keep. }
    assert (Hg : In (call_HouseDataset g) [call_HouseDataset (selected_generator conf t v)]).
    { rewrite <- Hds. by apply filter_In. }
    destruct Hg as [Hg|[]]. injection Hg as <-.
    unfold selected_generator. destruct t, v; try discriminate; simpl; auto.
Qed.

(** C5: when the two flags are not both set, the generator is chosen from
    the two flags alone: the train-time generator if
    [use_train_graph_generator], else the validation-time one if
    [use_val_graph_generator], else [InferenceHGG].  Right after the
    set-up calls, the run builds exactly that generator, and no other, and
    hands it to the dataset. *)
Theorem C5_generator_selection conf hs cp keep t v :
  t && v = false →
  let g :=
    if t then get_graph_generator conf (train_graph_generator (texture_prop conf)) false
    else if v then get_graph_generator conf (val_graph_generator (texture_prop conf)) false
    else InferenceHGG conf false in
  (∃ rest,
     calls (run_process conf hs cp keep t v).2
     = setup_calls conf cp
       ++ [generator_call g; call_HouseDataset g;
           call_DataLoader (train_bs (texture_prop conf))]
       ++ rest)
  ∧ List.filter is_generator_call (calls (run_process conf hs cp keep t v).2)
    = [generator_call g].
Proof.
  intros Htv g. rewrite (process_returns _ _ _ _ _ _ Htv). cbn [snd calls].
  fold (selected_generator conf t v) in g. split.
  - eexists. reflexivity.
  - rewrite !List.filter_app, loop_calls_filter_nil by done.
    subst g. unfold selected_generator. by destruct t, v, keep.
Qed.


(** C7: in a run whose two graph-generator flags are not both
    set and whose batch size is positive, [fill_textures] is called exactly
    once; it is the last call of the run, made after all batches were
    predicted and merged and the no-grad block was left, and it is given
    the whole houses dictionary as the batch loop left it. *)
Theorem C7_fill_textures_once_after_loop conf hs cp keep t v :
  t && v = false →
  0 < train_bs (texture_prop conf) →
  let g := selected_generator conf t v in
  let n := batch_count conf keep hs g in
  length (List.filter is_fill_textures (calls (run_process conf hs cp keep t v).2)) = 1
  ∧ ∃ pre,
      calls (run_process conf hs cp keep t v).2
      = pre ++ [call_fill_textures true GNN_PROP keep]
      ∧ List.filter is_batch_work pre
        = flat_map (λ i, [call_predict i (device (texture_prop conf));
                          call_update_embeddings i keep]) (seq 0 n)
      ∧ In call_no_grad_exit pre
      ∧ houses (run_process conf hs cp keep t v).2
        = fill_textures conf
            (loop_houses conf (loaded_tp_predictor conf cp)
               (the_dataloader conf hs g) keep (entry_houses conf keep hs) 0 n)
            true (loaded_tg_predictor conf) GNN_PROP keep.
Proof.
  intros Htv _ g n. rewrite (process_returns _ _ _ _ _ _ Htv). cbn [snd calls houses].
  split.
  - rewrite !List.filter_app, loop_calls_filter_nil by done.
    subst g. unfold selected_generator. by destruct t, v, keep.
  - exists (setup_calls conf cp
            ++ [generator_call g; call_HouseDataset g;
                call_DataLoader (train_bs (texture_prop conf))]
            ++ (if keep then [] else [call_clear_predictions])
            ++ [call_no_grad_enter]
            ++ loop_calls conf (loaded_tp_predictor conf cp)
                 (the_dataloader conf hs g) keep (entry_houses conf keep hs) 0 n
            ++ [call_no_grad_exit; call_logging_info "Synthesizing textures"]).
    split; [| split; [| split]].
    + rewrite <- !app_assoc. reflexivity.
    + rewrite !List.filter_app, loop_calls_work.
      subst g. unfold selected_generator. destruct t, v, keep; try discriminate; simpl;
        by rewrite app_nil_r.
    + rewrite !in_app_iff. simpl. auto 10.
    + reflexivity.
Qed.

(** C8: whenever [process] calls [fill_textures], the
    [skip_existing_textures] argument is the [keep_existing_predictions]
    flag, and the final houses are the result of that call. *)
Theorem C8_skip_existing_is_keep_flag conf hs cp keep t v log src skip :
  In (call_fill_textures log src skip) (calls (run_process conf hs cp keep t v).2) →
  skip = keep
  ∧ ∃ h, houses (run_process conf hs cp keep t v).2
         = fill_textures conf h log (loaded_tg_predictor conf) src keep.
Proof.
  destruct (t && v) eqn:Htv.
  - apply andb_true_iff in Htv as [-> ->]. rewrite process_aborts. simpl.
    intros [?|[?|[?|[?|[?|[]]]]]]; discriminate.
  - intros Hin.
    assert (Hf : List.filter is_fill_textures (calls (run_process conf hs cp keep t v).2)
                 = [call_fill_textures true GNN_PROP keep]).
    { rewrite (process_returns _ _ _ _ _ _ Htv). cbn [snd calls].
      rewrite !List.filter_app, loop_calls_filter_nil by done.
      unfold selected_generator. by destruct t, v, keep. }
    assert (Hc : In (call_fill_textures log src skip) [call_fill_textures true GNN_PROP keep]).
    { rewrite <- Hf. by apply filter_In. }
    destruct Hc as [Hc|[]]. injection Hc as <- <- <-.
    split; [done |].
    rewrite (process_returns _ _ _ _ _ _ Htv). cbn [snd houses]. eauto.
Qed.

(** C10: every run starts with the same five calls, which load the
    synthesis predictor's checkpoint and then the propagation predictor's;
    with both graph-generator flags set these five calls are the whole
    run, which then ends in the assertion failure. *)
Theorem C10_checkpoints_loaded_before_flag_check conf hs cp keep :
  (∀ t v, ∃ rest,
     calls (run_process conf hs cp keep t v).2
     = [ call_load_conf_eval (texture_synth_conf (texture_gen conf));
         call_TextureGenPredictor (load_conf_eval (texture_synth_conf (texture_gen conf)))
           (rgb_median_emb (texture_gen conf));
         call_load_checkpoint TextureGen (texture_gen_checkpoint_path (texture_gen conf));
         call_TexturePropPredictor;
         call_load_checkpoint TextureProp cp ] ++ rest)
  ∧ (run_process conf hs cp keep true true).1 = Raised AssertionError
  ∧ calls (run_process conf hs cp keep true true).2
    = [ call_load_conf_eval (texture_synth_conf (texture_gen conf));
        call_TextureGenPredictor (load_conf_eval (texture_synth_conf (texture_gen conf)))
          (rgb_median_emb (texture_gen conf));
        call_load_checkpoint TextureGen (texture_gen_checkpoint_path (texture_gen conf));
        call_TexturePropPredictor;
        call_load_checkpoint TextureProp cp ].
Proof.
  split; [| by rewrite process_aborts].
  intros t v. destruct (t && v) eqn:Htv.
  - apply andb_true_iff in Htv as [-> ->]. rewrite process_aborts.
    exists []. reflexivity.
  - rewrite (process_returns _ _ _ _ _ _ Htv). cbn [snd calls].
    eexists. reflexivity.
Qed.

End RunLemmas.

(** ** The modelled collaborators *)

Section SpecLemmas.
Context {Embedding Crop : Type}.
Variable gnn : TexturePropPredictor → gmap string (Node Embedding) → string → Embedding.
Variable synthesize : TextureGenPredictor → Embedding → Crop.

#[local] Abbreviation SC := (spec_collaborators gnn synthesize).
#[local] Abbreviation Houses := (gmap string (gmap string (Surface Embedding Crop))).

Lemma embeddings_kept_refl (hs : Houses) : embeddings_kept hs hs.
Proof. intros hk h sk s e ? ? ?. eauto. Qed.

Lemma embeddings_kept_trans (hs1 hs2 hs3 : Houses) :
  embeddings_kept hs1 hs2 → embeddings_kept hs2 hs3 → embeddings_kept hs1 hs3.
Proof.
  intros H12 H23 hk h sk s e Hh Hs He.
  destruct (H12 _ _ _ _ _ Hh Hs He) as (h2 & s2 & ? & ? & ?). eauto.
Qed.

Lemma lookup_update_house keep (preds : gmap string Embedding)
    (h : gmap string (Surface Embedding Crop)) sk :
  update_house keep preds h !! sk = update_surface keep (preds !! sk) <$> h !! sk.
Proof. unfold update_house. rewrite map_lookup_imap. by destruct (h !! sk). Qed.

Lemma update_surface_keep (pred : option Embedding) (s : Surface Embedding Crop) e :
  embedding s = Some e → update_surface true pred s = s.
Proof.
  intros He. unfold update_surface. destruct pred; [| done].
  by rewrite He.
Qed.

Lemma alter_update_kept (preds : gmap string Embedding) k (hs : Houses) :
  embeddings_kept hs (alter (update_house true preds) k hs).
Proof.
  intros hk h sk s e Hh Hs He.
  destruct (decide (k = hk)) as [->|Hne].
  - exists (update_house true preds h), s. split; [| split; [| done]].
    + by rewrite lookup_alter_eq, Hh.
    + by rewrite lookup_update_house, Hs; simpl; erewrite update_surface_keep.
  - exists h, s. by rewrite lookup_alter_ne.
Qed.

Lemma spec_update_embeddings_kept conf (hs : Houses) batch output :
  embeddings_kept hs (spec_update_embeddings conf hs batch output true).
Proof.
  unfold spec_update_embeddings. revert hs.
  induction output as [|kp output IH]; intros hs; simpl.
  - apply embeddings_kept_refl.
  - eapply embeddings_kept_trans; [apply alter_update_kept | apply IH].
Qed.

Lemma spec_fill_textures_kept conf (hs : Houses) log predictor src skip :
  embeddings_kept hs (spec_fill_textures synthesize conf hs log predictor src skip).
Proof.
  intros hk h sk s e Hh Hs He. unfold spec_fill_textures.
  exists (fill_surface synthesize predictor src skip <$> h),
         (fill_surface synthesize predictor src skip s).
  rewrite lookup_fmap, Hh, lookup_fmap, Hs. split; [done | split; [done |]].
  unfold fill_surface. rewrite He. by destruct (skip && _).
Qed.

Lemma loop_houses_kept conf p dl r : ∀ (hs : Houses) i,
  embeddings_kept hs
    (loop_houses (H := spec_collaborators gnn synthesize) conf p dl true hs i r).
Proof.
  induction r as [|r IH]; intros hs i; simpl.
  - apply embeddings_kept_refl.
  - eapply embeddings_kept_trans; [| apply IH].
    apply spec_update_embeddings_kept.
Qed.

(** C1: with [keep_existing_predictions = true], an embedding that a
    surface holds before the run is the embedding it holds after it,
    whatever the two graph-generator flags are. *)
Theorem C1_existing_embeddings_kept conf (hs : Houses) cp t v hk h sk s e :
  hs !! hk = Some h → h !! sk = Some s → embedding s = Some e →
  ∃ (h' : gmap string (Surface Embedding Crop)) s',
    houses (spec_run_process gnn synthesize conf hs cp true t v).2 !! hk = Some h'
    ∧ h' !! sk = Some s'
    ∧ embedding s' = Some e.
Proof.
  revert hk h sk s e. change (embeddings_kept hs
    (houses (spec_run_process gnn synthesize conf hs cp true t v).2)).
  unfold spec_run_process. destruct (t && v) eqn:Htv.
  - apply andb_true_iff in Htv as [-> ->]. rewrite process_aborts.
    apply embeddings_kept_refl.
  - rewrite (process_returns _ _ _ _ _ _ Htv). cbn [snd houses].
    eapply embeddings_kept_trans; [| apply spec_fill_textures_kept].
    apply loop_houses_kept.
Qed.

Lemma grows_refl (hs : Houses) : grows hs hs.
Proof.
  intros hk h Hh. exists h. split; [done | split; [done |]].
  intros sk s s' Hs Hs' ?. by simplify_eq.
Qed.

Lemma grows_trans (hs1 hs2 hs3 : Houses) :
  grows hs1 hs2 → grows hs2 hs3 → grows hs1 hs3.
Proof.
  intros H12 H23 hk h1 Hh1.
  destruct (H12 _ _ Hh1) as (h2 & Hh2 & Hd2 & Hm2).
  destruct (H23 _ _ Hh2) as (h3 & Hh3 & Hd3 & Hm3).
  exists h3. split; [done | split; [congruence |]].
  intros sk s1 s3 Hs1 Hs3 He.
  assert (is_Some (h2 !! sk)) as [s2 Hs2].
  { apply elem_of_dom. rewrite Hd2. apply elem_of_dom. eauto. }
  eauto.
Qed.

Lemma dom_update_house keep (preds : gmap string Embedding)
    (h : gmap string (Surface Embedding Crop)) :
  dom (update_house keep preds h) = dom h.
Proof.
  apply set_eq. intros sk.
  by rewrite !elem_of_dom, lookup_update_house, fmap_is_Some.
Qed.

Lemma update_surface_mono keep (pred : option Embedding) (s : Surface Embedding Crop) :
  is_Some (embedding s) → is_Some (embedding (update_surface keep pred s)).
Proof.
  intros He. unfold update_surface. destruct pred; [| done].
  destruct (keep && _); [done | simpl; eauto].
Qed.

Lemma alter_update_grows keep (preds : gmap string Embedding) k (hs : Houses) :
  grows hs (alter (update_house keep preds) k hs).
Proof.
  intros hk h Hh. destruct (decide (k = hk)) as [->|Hne].
  - exists (update_house keep preds h). rewrite lookup_alter_eq, Hh.
    split; [done | split; [apply dom_update_house |]].
    intros sk s s' Hs. rewrite lookup_update_house, Hs. simpl.
    intros [= <-]. apply update_surface_mono.
  - exists h. rewrite lookup_alter_ne by done.
    split; [done | split; [done |]].
    intros sk s s' Hs Hs' ?. by simplify_eq.
Qed.

Lemma foldl_update_grows keep (output : list (string * gmap string Embedding)) :
  ∀ hs : Houses,
    grows hs (foldl (λ acc kp, alter (update_house keep kp.2) kp.1 acc) hs output).
Proof.
  induction output as [|kp output IH]; intros hs; simpl.
  - apply grows_refl.
  - eapply grows_trans; [apply alter_update_grows | apply IH].
Qed.

Lemma spec_update_embeddings_grows conf (hs : Houses) batch output keep :
  grows hs (spec_update_embeddings conf hs batch output keep).
Proof. apply foldl_update_grows. Qed.

Lemma loop_houses_grows conf p dl keep r : ∀ (hs : Houses) i,
  grows hs (loop_houses (H := spec_collaborators gnn synthesize) conf p dl keep hs i r).
Proof.
  induction r as [|r IH]; intros hs i; simpl.
  - apply grows_refl.
  - eapply grows_trans; [| apply IH]. apply spec_update_embeddings_grows.
Qed.

Lemma grows_all_embedded (hs hs' : Houses) hk h :
  grows hs hs' → hs !! hk = Some h → all_embedded h →
  ∃ h', hs' !! hk = Some h' ∧ all_embedded h'.
Proof.
  intros Hg Hh Ha. destruct (Hg _ _ Hh) as (h' & Hh' & Hd & Hm).
  exists h'. split; [done |]. intros sk s' Hs'.
  assert (is_Some (h !! sk)) as [s Hs].
  { apply elem_of_dom. rewrite <- Hd. apply elem_of_dom. eauto. }
  eauto.
Qed.

Lemma update_house_all_embedded (preds : gmap string Embedding)
    (h : gmap string (Surface Embedding Crop)) :
  dom h ⊆ dom preds → all_embedded (update_house false preds h).
Proof.
  intros Hsub sk s'. rewrite lookup_update_house.
  destruct (h !! sk) as [s|] eqn:Hs; [| done]. simpl. intros [= <-].
  assert (is_Some (preds !! sk)) as [e ->].
  { apply elem_of_dom, Hsub, elem_of_dom. eauto. }
  simpl. eauto.
Qed.

Lemma foldl_update_embedded (output : list (string * gmap string Embedding)) :
  ∀ (acc : Houses) key preds h1,
    (key, preds) ∈ output → acc !! key = Some h1 → dom h1 ⊆ dom preds →
    ∃ h', foldl (λ acc kp, alter (update_house false kp.2) kp.1 acc) acc output !! key
          = Some h' ∧ all_embedded h'.
Proof.
  induction output as [|kp output IH]; intros acc key preds h1 Hin Hacc Hsub.
  - by apply elem_of_nil in Hin.
  - simpl. apply elem_of_cons in Hin as [<-|Hin].
    + simpl.
      eapply (grows_all_embedded (alter (update_house false preds) key acc)).
      * apply foldl_update_grows.
      * by rewrite lookup_alter_eq, Hacc.
      * by apply update_house_all_embedded.
    + destruct (alter_update_grows false kp.2 kp.1 acc _ _ Hacc) as (h2 & Hh2 & Hd2 & _).
      eapply IH; [done | done |]. by rewrite Hd2.
Qed.

Lemma dom_spec_predict_graph p (g : gmap string (Node Embedding)) :
  dom (map_imap (λ sk _, Some (gnn p g sk)) g) = dom g.
Proof.
  apply set_eq. intros sk. rewrite !elem_of_dom, map_lookup_imap.
  destruct (g !! sk); simpl; split; intros [? ?]; eauto; done.
Qed.

Lemma batch_step_embedded conf p (dl : @DataLoader SC) (hs : Houses) i key h :
  key ∈ take (batch_size dl) (drop (i * batch_size dl) (house_keys (dataset dl))) →
  hs !! key = Some h →
  ∃ h', (batch_step (H := SC) conf p dl false hs i : Houses) !! key = Some h'
        ∧ all_embedded h'.
Proof.
  intros Hkey Hh. unfold batch_step. simpl.
  unfold spec_update_embeddings.
  eapply (foldl_update_embedded _ hs key _ h); [| done |].
  - unfold spec_predict. apply list_elem_of_fmap.
    exists (key, generate (graph_generator (dataset dl)) h). split; [reflexivity |].
    unfold spec_dataloader_batch. apply list_elem_of_omap.
    exists key. split; [done |]. by rewrite Hh.
  - simpl. rewrite dom_spec_predict_graph. unfold generate. by rewrite dom_fmap_L.
Qed.

Lemma chunk_cover (keys : list string) bs key :
  0 < bs → key ∈ keys →
  ∃ j, j < (length keys + bs - 1) / bs ∧ key ∈ take bs (drop (j * bs) keys).
Proof.
  intros Hbs [p Hp]%list_elem_of_lookup.
  pose proof (lookup_lt_Some _ _ _ Hp) as Hlt.
  exists (p / bs). split.
  - replace (length keys + bs - 1) with ((length keys - 1) + 1 * bs) by lia.
    rewrite Nat.div_add by lia.
    assert (p / bs ≤ (length keys - 1) / bs); [| lia].
    apply Nat.Div0.div_le_mono. lia.
  - apply list_elem_of_lookup. exists (p mod bs).
    rewrite lookup_take_lt by (apply Nat.mod_upper_bound; lia).
    rewrite lookup_drop.
    replace (p / bs * bs + p mod bs) with p; [done |].
    rewrite (Nat.div_mod_eq p bs) at 1. lia.
Qed.

Lemma loop_houses_covers conf p (dl : @DataLoader SC) key r : ∀ (hs : Houses) i j,
  i ≤ j < i + r →
  key ∈ take (batch_size dl) (drop (j * batch_size dl) (house_keys (dataset dl))) →
  is_Some (hs !! key) →
  ∃ h', (loop_houses (H := SC) conf p dl false hs i r : Houses) !! key = Some h'
        ∧ all_embedded h'.
Proof.
  induction r as [|r IH]; intros hs i j Hj Hkey [h Hh]; [lia |]. simpl.
  destruct (decide (j = i)) as [->|Hne].
  - destruct (batch_step_embedded conf p dl hs i key h Hkey Hh) as (h1 & Hh1 & Ha1).
    eapply grows_all_embedded; [apply loop_houses_grows | done | done].
  - apply (IH _ (S i) j); [lia | done |].
    destruct (spec_update_embeddings_grows conf hs
                (spec_dataloader_batch (dataset dl) (batch_size dl) hs i)
                (spec_predict gnn p (spec_dataloader_batch (dataset dl) (batch_size dl) hs i))
                false _ _ Hh) as (h1 & Hh1 & _).
    unfold batch_step. simpl. rewrite Hh1. eauto.
Qed.

Lemma fill_surface_filled predictor src (s : Surface Embedding Crop) :
  is_Some (embedding s) →
  is_Some (embedding (fill_surface synthesize predictor src false s))
  ∧ is_Some (crop (fill_surface synthesize predictor src false s)).
Proof.
  intros [e He]. unfold fill_surface. rewrite He. simpl. eauto.
Qed.

(** C9: with the default flags and a positive batch size the run returns,
    and a surface that had no crop before holds an embedding and a crop
    after. *)
Theorem C9_default_run_fills_surface conf (hs : Houses) cp hk h sk s :
  0 < train_bs (texture_prop conf) →
  hs !! hk = Some h → h !! sk = Some s → crop s = None →
  (spec_run_process gnn synthesize conf hs cp false false false).1 = Returned tt
  ∧ ∃ (h' : gmap string (Surface Embedding Crop)) s',
      houses (spec_run_process gnn synthesize conf hs cp false false false).2 !! hk
      = Some h'
      ∧ h' !! sk = Some s'
      ∧ is_Some (embedding s')
      ∧ is_Some (crop s').
Proof.
  intros Hbs Hh Hs _. unfold spec_run_process.
  rewrite (process_returns (H := SC) conf hs cp false false false eq_refl).
  cbn [fst snd houses]. split; [done |].
  set (g := selected_generator conf false false).
  set (dl := the_dataloader (H := SC) conf hs g).
  assert (Hkey : hk ∈ house_keys (dataset dl)).
  { simpl. apply list_elem_of_fmap. exists (hk, h). split; [done |].
    by apply elem_of_map_to_list. }
  destruct (chunk_cover _ _ _ Hbs Hkey) as (j & Hj & Hchunk).
  destruct (loop_houses_covers conf (loaded_tp_predictor conf cp) dl hk
              (batch_count (H := SC) conf false hs g)
              (entry_houses (H := SC) conf false hs) 0 j) as (h1 & Hh1 & Ha1).
  - split; [lia |]. exact Hj.
  - exact Hchunk.
  - simpl. unfold spec_clear_predictions. rewrite lookup_fmap, Hh. eauto.
  - assert (is_Some (h1 !! sk)) as [s1 Hs1].
    { destruct (loop_houses_grows conf (loaded_tp_predictor conf cp) dl false
                  (batch_count (H := SC) conf false hs g)
                  (entry_houses (H := SC) conf false hs) 0 hk
                  (clear_surface <$> h)) as (h2 & Hh2 & Hd2 & _).
      { simpl. unfold spec_clear_predictions. by rewrite lookup_fmap, Hh. }
      rewrite Hh1 in Hh2. injection Hh2 as <-.
      apply elem_of_dom. rewrite Hd2, dom_fmap_L. apply elem_of_dom. eauto. }
    exists (fill_surface synthesize (loaded_tg_predictor conf) GNN_PROP false <$> h1),
           (fill_surface synthesize (loaded_tg_predictor conf) GNN_PROP false s1).
    split; [| split].
    + etrans; [apply lookup_fmap |].
      exact (f_equal (fmap (λ h0 : gmap string (Surface Embedding Crop),
               fill_surface synthesize (loaded_tg_predictor conf) GNN_PROP false <$> h0)) Hh1).
    + by rewrite lookup_fmap, Hs1.
    + apply fill_surface_filled. eauto.
Qed.

End SpecLemmas.

(** ** The theorems at the example inputs *)

Lemma C1_existing_embeddings_kept_witness :
  example_houses !! "house1" = Some example_house1
  ∧ example_house1 !! "floor" = Some example_floor
  ∧ embedding example_floor = Some 5%Z
  ∧ ∃ (h' : gmap string (Surface Z Z)) s',
      houses (example_run true false false).2 !! "house1" = Some h'
      ∧ h' !! "floor" = Some s'
      ∧ embedding s' = Some 5%Z.
Proof.
  split; [reflexivity | split; [reflexivity | split; [reflexivity |]]].
  apply (C1_existing_embeddings_kept example_gnn example_synthesize example_conf
           example_houses "gnn.ckpt" false false "house1" example_house1
           "floor" example_floor 5%Z); reflexivity.
Defined.

Lemma C2_cleared_before_propagation_witness :
  is_predict (call_predict 0 "cpu") = true
  ∧ In call_clear_predictions (take 11 (calls (example_run false false false).2)).
Proof.
  split; [reflexivity |].
  apply (C2_cleared_before_propagation (H := spec_collaborators example_gnn example_synthesize)
           example_conf example_houses "gnn.ckpt" false false
           (take 11 (calls (example_run false false false).2))
           (call_predict 0 "cpu")
           (drop 12 (calls (example_run false false false).2))).
  - vm_compute. reflexivity.
  - reflexivity.
Defined.

Lemma C4_no_policy_includes_targets_witness :
  In (call_HouseDataset (get_graph_generator example_conf "train_graph_generator" false))
     (calls (example_run false true false).2)
  ∧ include_target (get_graph_generator example_conf "train_graph_generator" false) = false.
Proof.
  assert (Hin : In (call_HouseDataset
                      (get_graph_generator example_conf "train_graph_generator" false))
                   (calls (example_run false true false).2)).
  { vm_compute. do 6 right. left. reflexivity. }
  split; [exact Hin |].
  exact (proj1 (C4_no_policy_includes_targets
                  (H := spec_collaborators example_gnn example_synthesize)
                  example_conf example_houses "gnn.ckpt" false true false _ Hin)).
Defined.

(** C4, the train-time policy: it is not the case that the generators handed
    to the dataset in a run with [use_train_graph_generator] include
    targets; the one built there has [include_target = false]. *)
Lemma C4_train_policy_withholds_targets :
  ¬ (∀ g, In (call_HouseDataset g) (calls (example_run false true false).2) →
          include_target g = true).
Proof.
  intros Hc.
  specialize (Hc (get_graph_generator example_conf "train_graph_generator" false)).
  assert (Hin : In (call_HouseDataset
                      (get_graph_generator example_conf "train_graph_generator" false))
                   (calls (example_run false true false).2)).
  { vm_compute. do 6 right. left. reflexivity. }
  apply Hc in Hin. discriminate Hin.
Qed.

Lemma C5_generator_selection_witness :
  true && false = false
  ∧ List.filter is_generator_call (calls (example_run false true false).2)
    = [call_get_graph_generator "train_graph_generator" false].
Proof.
  split; [reflexivity |].
  exact (proj2 (C5_generator_selection
                  (H := spec_collaborators example_gnn example_synthesize)
                  example_conf example_houses "gnn.ckpt" false true false eq_refl)).
Defined.

(** C5, both flags set: the run stops at the assertion before the
    if-chain, so it is not the case that the train-time generator is
    selected; no generator is built at all. *)
Lemma C5_both_flags_select_no_generator :
  ¬ (List.filter is_generator_call (calls (example_run false true true).2)
     = [call_get_graph_generator "train_graph_generator" false]).
Proof. vm_compute. discriminate. Qed.


Lemma C7_fill_textures_once_after_loop_witness :
  false && true = false
  ∧ 0 < train_bs (texture_prop example_conf)
  ∧ length (List.filter is_fill_textures (calls (example_run false false true).2)) = 1.
Proof.
  assert (Hbs : 0 < train_bs (texture_prop example_conf)) by (simpl; lia).
  split; [reflexivity | split; [exact Hbs |]].
  exact (proj1 (C7_fill_textures_once_after_loop
                  (H := spec_collaborators example_gnn example_synthesize)
                  example_conf example_houses "gnn.ckpt" false false true eq_refl Hbs)).
Defined.

(** C7, the aborted run: with both graph-generator flags set,
    [fill_textures] is not called at all, so the number of calls is not one. *)
Lemma C7_aborted_run_never_fills :
  length (List.filter is_fill_textures (calls (example_run false true true).2)) ≠ 1.
Proof. vm_compute. discriminate. Qed.

Lemma C8_skip_existing_is_keep_flag_witness :
  In (call_fill_textures true GNN_PROP true) (calls (example_run true false false).2)
  ∧ true = true.
Proof.
  assert (Hin : In (call_fill_textures true GNN_PROP true)
                   (calls (example_run true false false).2)).
  { vm_compute. do 17 right. left. reflexivity. }
  split; [exact Hin |].
  exact (proj1 (C8_skip_existing_is_keep_flag
                  (H := spec_collaborators example_gnn example_synthesize)
                  example_conf example_houses "gnn.ckpt" true false false
                  true GNN_PROP true Hin)).
Defined.

Lemma C9_default_run_fills_surface_witness :
  0 < train_bs (texture_prop example_conf)
  ∧ example_houses !! "house1" = Some example_house1
  ∧ example_house1 !! "wall" = Some example_wall
  ∧ crop example_wall = None
  ∧ ∃ (h' : gmap string (Surface Z Z)) s',
      houses (example_run false false false).2 !! "house1" = Some h'
      ∧ h' !! "wall" = Some s'
      ∧ is_Some (embedding s')
      ∧ is_Some (crop s').
Proof.
  split; [simpl; lia | split; [reflexivity | split; [reflexivity | split; [reflexivity |]]]].
  apply (C9_default_run_fills_surface example_gnn example_synthesize example_conf
           example_houses "gnn.ckpt" "house1" example_house1 "wall" example_wall);
    [simpl; lia | reflexivity | reflexivity | reflexivity].
Defined.

(** ** The save reasons *)

(** X1: looking a save reason up by value, or by name, finds exactly the
    member that has this value, or name; any other string finds none. *)
Theorem SaveReason_lookup_round_trip (s : string) (r : SaveReason) :
  (SaveReason_of_value s = Some r ↔ SaveReason_value r = s)
  ∧ (SaveReason_of_name s = Some r ↔ SaveReason_name r = s).
Proof.
  unfold SaveReason_of_value, SaveReason_of_name. simpl.
  split; (split; [repeat case_bool_decide; intros; by simplify_eq |]);
    intros <-; by destruct r.
Qed.

(** ** Paths built by the script *)

Lemma string_app_cons (c : ascii) (s t : string) :
  String c s +:+ t = String c (s +:+ t).
Proof. reflexivity. Qed.

Lemma string_app_nil_l (t : string) : "" +:+ t = t.
Proof. reflexivity. Qed.

Lemma string_app_assoc (s t u : string) : (s +:+ t) +:+ u = s +:+ (t +:+ u).
Proof.
  induction s as [|c s IH]; [done |].
  by rewrite !string_app_cons, IH.
Qed.

Lemma string_length_app (s t : string) :
  String.length (s +:+ t) = String.length s + String.length t.
Proof.
  induction s as [|c s IH]; [done |].
  rewrite string_app_cons. simpl. by rewrite IH.
Qed.

Lemma string_app_inj_r (t : string) : ∀ s1 s2 : string, s1 +:+ t = s2 +:+ t → s1 = s2.
Proof.
  induction s1 as [|c s1 IH]; intros [|c' s2] Heq; [done | | |].
  - apply (f_equal String.length) in Heq.
    rewrite !string_length_app in Heq. simpl in Heq. lia.
  - apply (f_equal String.length) in Heq.
    rewrite !string_length_app in Heq. simpl in Heq. lia.
  - rewrite !string_app_cons in Heq. injection Heq as -> Heq. f_equal. by apply IH.
Qed.

Lemma string_app_nonempty_r (s t : string) : t ≠ "" → s +:+ t ≠ "".
Proof. destruct s; [done |]. by rewrite string_app_cons. Qed.

Lemma ends_with_sep_app (s t : string) :
  t ≠ "" → ends_with_sep (s +:+ t) = ends_with_sep t.
Proof.
  intros Ht. induction s as [|c s IH]; [done |].
  rewrite string_app_cons. simpl.
  destruct (s +:+ t) eqn:Hst; [| done].
  by apply string_app_nonempty_r in Hst.
Qed.

Lemma starts_with_sep_app (s t : string) :
  s ≠ "" → starts_with_sep (s +:+ t) = starts_with_sep s.
Proof. by destruct s. Qed.

Lemma starts_with_sep_json (k : string) :
  starts_with_sep (k +:+ ".json") = starts_with_sep k.
Proof. by destruct k. Qed.

Lemma crops_dir_prefix (root : string) :
  crops_dir root = root_prefix root +:+ "texture_crops".
Proof.
  unfold crops_dir, root_prefix, osp_join, join2. cbn [foldl starts_with_sep].
  rewrite bool_decide_eq_false_2 by done.
  destruct (bool_decide (root = "") || ends_with_sep root); [done |].
  symmetry. apply string_app_assoc.
Qed.

Lemma embeddings_dir_prefix (root : string) :
  embeddings_dir root = root_prefix root +:+ "surface_texture_embeddings".
Proof.
  unfold embeddings_dir, root_prefix, osp_join, join2. cbn [foldl starts_with_sep].
  rewrite bool_decide_eq_false_2 by done.
  destruct (bool_decide (root = "") || ends_with_sep root); [done |].
  symmetry. apply string_app_assoc.
Qed.

Lemma join2_dir_relative (d lit k : string) :
  lit ≠ "" → ends_with_sep lit = false → starts_with_sep k = false →
  join2 (d +:+ lit) k = (d +:+ lit) +:+ "/" +:+ k.
Proof.
  intros Hlit Hend Hk. unfold join2. rewrite Hk.
  rewrite ends_with_sep_app, Hend by done.
  rewrite bool_decide_eq_false_2; [done |].
  by apply string_app_nonempty_r.
Qed.

Lemma relative_key_paths_aux (root k : string) :
  starts_with_sep k = false →
  crops_path root k = crops_dir root +:+ "/" +:+ k
  ∧ embeddings_path root k = embeddings_dir root +:+ "/" +:+ k +:+ ".json".
Proof.
  intros Hk. split.
  - change (crops_path root k) with (join2 (crops_dir root) k).
    rewrite crops_dir_prefix. by apply join2_dir_relative.
  - change (embeddings_path root k) with (join2 (embeddings_dir root) (k +:+ ".json")).
    rewrite embeddings_dir_prefix. apply join2_dir_relative; [done | done |].
    by rewrite starts_with_sep_json.
Qed.

(** X2: for a house key that does not start with the separator, the crops
    of the house go to the directory [texture_crops] under the root and
    its embeddings to a [.json] file in [surface_texture_embeddings]:
    exactly the two directories the script creates under the output
    path. *)
Theorem relative_key_paths (root k : string) :
  starts_with_sep k = false →
  crops_path root k = crops_dir root +:+ "/" +:+ k
  ∧ embeddings_path root k = embeddings_dir root +:+ "/" +:+ k +:+ ".json".
Proof. apply relative_key_paths_aux. Qed.

(** X3: for a house key that starts with the separator, whatever the root
    is, the crops path is the key itself and the embeddings path is the
    key followed by [.json]: [os.path.join] discards the root and the
    directory name. *)
Theorem absolute_key_paths (root k : string) :
  starts_with_sep k = true →
  crops_path root k = k ∧ embeddings_path root k = k +:+ ".json".
Proof.
  intros Hk. unfold crops_path, embeddings_path, osp_join. simpl.
  unfold join2 at 1 3. by rewrite starts_with_sep_json, Hk.
Qed.

(** X4: under one root, for house keys that do not start with the
    separator, the path strings are built injectively: two keys get the
    same crops path string, or the same embeddings path string, only if
    they are the same key, and a crops path string is never an embeddings
    path string.  (Strings only: paths are not normalised.) *)
Theorem relative_key_paths_distinct (root k1 k2 : string) :
  starts_with_sep k1 = false → starts_with_sep k2 = false →
  (crops_path root k1 = crops_path root k2 → k1 = k2)
  ∧ (embeddings_path root k1 = embeddings_path root k2 → k1 = k2)
  ∧ crops_path root k1 ≠ embeddings_path root k2.
Proof.
  intros H1 H2.
  destruct (relative_key_paths_aux root k1 H1) as [Hc1 He1].
  destruct (relative_key_paths_aux root k2 H2) as [Hc2 He2].
  rewrite Hc1, Hc2, He1, He2. split; [| split].
  - intros Heq. by repeat apply String.app_inj in Heq.
  - intros Heq. do 2 apply String.app_inj in Heq. by apply string_app_inj_r in Heq.
  - rewrite crops_dir_prefix, embeddings_dir_prefix, !string_app_assoc.
    intros Heq. apply String.app_inj in Heq. discriminate.
Qed.

(** ** The shape of a run of the script *)

Section ScriptLemmas.
Context `{ScriptCollaborators}.

#[local] Arguments osp_join : simpl never.

#[local] Ltac calls_norm :=
  unfold ensure_calls;
  repeat (rewrite <- app_assoc || rewrite <- app_comm_cons);
  cbn [app]; reflexivity.

Lemma ensure_step {B} (create : FS → string → option FS) (mk : string → ScriptCall)
    (path : string) (k : unit → SM B) (w : ScriptWorld) :
  sbind (e <~ osp_exists_ path ;;
         if negb e then create_ create (mk path) path else sret tt) k w
  = match ensure_fs create (fs w) path with
    | Some fs' =>
        k tt {| fs := fs'; script_houses := script_houses w;
                script_calls := script_calls w ++ ensure_calls mk (fs w) path |}
    | None =>
        (Failed OSError,
         {| fs := fs w; script_houses := script_houses w;
            script_calls := script_calls w ++ ensure_calls mk (fs w) path |})
    end.
Proof.
  destruct w as [f hs cs].
  unfold sbind, osp_exists_, create_, slog, sret, ensure_fs, ensure_calls. simpl.
  destruct (osp_exists f path); simpl; [done |].
  unfold sbind. simpl.
  destruct (create f path); simpl; by rewrite <- app_assoc.
Qed.

Lemma load_loop_run conf root items : ∀ i w,
  for_items (λ i house_key house,
      n <~ len_houses ;;
      script_logging_info (loading_message i n house_key) ;;~
      house <~ load_house_crops_ conf house_key house (osp_join root ["texture_crops"; house_key]) ;;
      house <~ load_house_texture_embeddings_ house_key house
                 (osp_join root ["surface_texture_embeddings"; house_key +:+ ".json"]) ;;
      sret tt) i items w
  = (Completed tt,
     {| fs := fs w;
        script_houses := load_houses (fs w) conf root (script_houses w) items;
        script_calls := script_calls w ++ load_log (fs w) conf root (script_houses w) i items |}).
Proof.
  induction items as [|[k h] items IH]; intros i [f hs cs]; simpl.
  - unfold sret. by rewrite app_nil_r.
  - unfold sbind at 1. simpl. rewrite IH. simpl.
    rewrite insert_insert_eq. unfold load_one, crops_path, embeddings_path.
    by rewrite <- !app_assoc.
Qed.

Lemma save_loop_run root items : ∀ i w,
  for_items (λ i house_key house,
      n <~ len_houses ;;
      script_logging_info (saving_message i n house_key) ;;~
      save_house_crops_ house_key house (osp_join root ["texture_crops"; house_key]) ;;~
      save_house_texture_embeddings_ house_key house
        (osp_join root ["surface_texture_embeddings"; house_key +:+ ".json"])) i items w
  = (Completed tt,
     {| fs := save_fs root (fs w) items;
        script_houses := script_houses w;
        script_calls := script_calls w ++ save_log root (size (script_houses w)) i items |}).
Proof.
  induction items as [|[k h] items IH]; intros i [f hs cs]; simpl.
  - unfold sret. by rewrite app_nil_r.
  - unfold sbind at 1. simpl. rewrite IH. simpl.
    unfold save_calls_of, crops_path, embeddings_path. simpl.
    by rewrite <- !app_assoc.
Qed.

(** The script once the three guarded creations went through. *)
Lemma main_after_setup conf args fs0 fs1 :
  setup_fs fs0 (output_path args) = Some fs1 →
  run_main conf args fs0
  = let r := script_process_run fs1 conf args in
    match r.1 with
    | Returned _ =>
        (Completed tt,
         {| fs := save_fs (output_path args) fs1 (dict_items (houses r.2));
            script_houses := houses r.2;
            script_calls :=
              before_process_log fs0 fs1 conf args
              ++ (in_process <$> calls r.2)
              ++ save_log (output_path args) (size (houses r.2)) 0
                   (dict_items (houses r.2)) |})
    | Raised e =>
        (Failed (ProcessRaised e),
         {| fs := fs1; script_houses := houses r.2;
            script_calls :=
              before_process_log fs0 fs1 conf args ++ (in_process <$> calls r.2) |})
    end.
Proof.
  unfold setup_fs, run_main, main, before_process_log, setup_log. intros Hsetup.
  unfold os_makedirs_, os_mkdir_. cbv zeta.
  rewrite (ensure_step os_makedirs call_os_makedirs). cbn [fs script_houses script_calls].
  destruct (ensure_fs os_makedirs fs0 (output_path args)) as [fa|]; [| done].
  rewrite (ensure_step os_mkdir call_os_mkdir). cbn [fs script_houses script_calls].
  fold (embeddings_dir (output_path args)).
  destruct (ensure_fs os_mkdir fa (embeddings_dir (output_path args))) as [fb|]; [| done].
  rewrite (ensure_step os_mkdir call_os_mkdir). cbn [fs script_houses script_calls].
  fold (crops_dir (output_path args)). rewrite Hsetup.
  unfold sbind at 1. unfold get_data_list_ at 1. unfold sbind at 1. simpl.
  unfold sbind at 1. unfold parse_houses_ at 1. unfold sbind at 1. simpl.
  unfold sbind at 1. unfold for_enumerate_items at 1.
  rewrite load_loop_run. cbn [fs script_houses script_calls].
  unfold sbind at 1. unfold process_ at 1. cbn [fs script_houses script_calls].
  fold (arch_spec conf args). fold (photoroom_spec conf args).
  fold (parsed_houses fs1 conf args). fold (loaded_houses fs1 conf args).
  fold (script_process_run fs1 conf args).
  destruct (script_process_run fs1 conf args) as [[[]|e] w]; cbn [fst snd].
  - unfold for_enumerate_items. rewrite save_loop_run.
    cbn [fs script_houses script_calls]. do 2 f_equal. calls_norm.
  - do 2 f_equal. calls_norm.
Qed.

(** The script when one of the three guarded creations raises. *)
Lemma main_setup_fails conf args fs0 :
  setup_fs fs0 (output_path args) = None →
  (run_main conf args fs0).1 = Failed OSError
  ∧ script_calls (run_main conf args fs0).2 = setup_log fs0 (output_path args)
  ∧ script_houses (run_main conf args fs0).2 = ∅.
Proof.
  unfold setup_fs, run_main, main, setup_log. intros Hsetup.
  unfold os_makedirs_, os_mkdir_. cbv zeta.
  rewrite (ensure_step os_makedirs call_os_makedirs). cbn [fs script_houses script_calls].
  destruct (ensure_fs os_makedirs fs0 (output_path args)) as [fa|];
    [| cbn [fst snd script_calls script_houses]; rewrite ?app_nil_r; done].
  rewrite (ensure_step os_mkdir call_os_mkdir). cbn [fs script_houses script_calls].
  fold (embeddings_dir (output_path args)).
  destruct (ensure_fs os_mkdir fa (embeddings_dir (output_path args))) as [fb|];
    [| cbn [fst snd script_calls script_houses]; rewrite ?app_nil_r; done].
  rewrite (ensure_step os_mkdir call_os_mkdir). cbn [fs script_houses script_calls].
  fold (crops_dir (output_path args)). rewrite Hsetup.
  cbn [fst snd script_calls script_houses]. split_and!; [done | calls_norm | done].
Qed.

End ScriptLemmas.

Section ScriptTheorems.
Context `{ScriptCollaborators}.

#[local] Arguments osp_join : simpl never.

Lemma filter_nil {X} (q : X → bool) (l : list X) :
  (∀ c, In c l → q c = false) → List.filter q l = [].
Proof.
  induction l as [|x l IH]; intros Hq; simpl; [done |].
  rewrite (Hq x) by (by left). apply IH. intros c Hc. apply Hq. by right.
Qed.

Lemma setup_log_elem fs0 out c :
  In c (setup_log fs0 out) → is_fs_call c = true.
Proof.
  unfold setup_log, ensure_calls. rewrite !in_app_iff.
  destruct (osp_exists fs0 out), (ensure_fs os_makedirs fs0 out) as [fa|];
    simpl; rewrite ?in_app_iff; simpl.
  all: try destruct (osp_exists fa (embeddings_dir out));
    try destruct (ensure_fs os_mkdir fa (embeddings_dir out)) as [fb|]; simpl.
  all: try destruct (osp_exists fb (crops_dir out)); simpl.
  all: intros Hin; repeat (destruct Hin as [Hin|Hin]); by subst.
Qed.

Lemma load_log_elem fs1 conf root c items : ∀ hs i,
  In c (load_log fs1 conf root hs i items) →
  is_fs_call c = false ∧ is_in_process c = false ∧ is_save_call c = false.
Proof.
  induction items as [|[k h] items IH]; intros hs i; simpl; [done |].
  intros [<-|[<-|[<-|Hin]]]; eauto.
Qed.

Lemma load_log_loads fs1 conf root items : ∀ hs i,
  List.filter is_load_call (load_log fs1 conf root hs i items)
  = flat_map (λ kh, [call_load_house_crops kh.1 (crops_path root kh.1);
                     call_load_house_texture_embeddings kh.1 (embeddings_path root kh.1)])
      items.
Proof.
  induction items as [|[k h] items IH]; intros hs i; simpl; [done |].
  by rewrite IH.
Qed.

Lemma save_log_elem root n c items : ∀ i,
  In c (save_log root n i items) →
  is_fs_call c = false ∧ is_in_process c = false ∧ is_load_call c = false.
Proof.
  induction items as [|[k h] items IH]; intros i; simpl; [done |].
  intros [<-|[<-|[<-|Hin]]]; eauto.
Qed.

Lemma save_log_saves root n items : ∀ i,
  List.filter is_save_call (save_log root n i items) = flat_map (save_calls_of root) items.
Proof.
  induction items as [|[k h] items IH]; intros i; simpl; [done |].
  by rewrite IH.
Qed.

Lemma in_process_elem (l : list Call) c :
  In c (in_process <$> l) →
  is_fs_call c = false ∧ is_load_call c = false ∧ is_save_call c = false.
Proof. intros (x & <- & _)%in_map_iff. done. Qed.

Lemma in_process_filter (l : list Call) :
  List.filter is_in_process (in_process <$> l) = in_process <$> l.
Proof.
  induction l as [|x l IH]; [done |].
  rewrite fmap_cons. cbn [List.filter is_in_process]. by rewrite IH.
Qed.

Lemma before_process_log_elem fs0 fs1 conf args c :
  In c (before_process_log fs0 fs1 conf args) →
  is_in_process c = false ∧ is_save_call c = false.
Proof.
  unfold before_process_log. rewrite !in_app_iff.
  intros [Hin|[Hin|Hin]].
  - apply setup_log_elem in Hin. by destruct c.
  - simpl in Hin. destruct Hin as [<-|[<-|[]]]; done.
  - apply load_log_elem in Hin. tauto.
Qed.

Lemma dict_items_NoDup (m : gmap string House) : NoDup (dict_items m).*1.
Proof. rewrite dict_items_perm. apply NoDup_fst_map_to_list. Qed.

Lemma list_to_map_dict_items (m : gmap string House) :
  (list_to_map (dict_items m) : gmap string House) = m.
Proof.
  rewrite (list_to_map_proper _ (map_to_list m)).
  - apply list_to_map_to_list.
  - apply dict_items_NoDup.
  - apply dict_items_perm.
Qed.

#[local] Ltac save_free :=
  let c := fresh "c" in
  let Hc := fresh "Hc" in
  intros c Hc;
  first [ apply before_process_log_elem in Hc
        | apply load_log_elem in Hc
        | apply save_log_elem in Hc
        | apply in_process_elem in Hc
        | apply setup_log_elem in Hc ];
  destruct_and?; by destruct c.

Lemma load_houses_lookup fs1 conf root items : ∀ (hs : gmap string House) k,
  NoDup items.*1 →
  load_houses fs1 conf root hs items !! k
  = match (list_to_map items : gmap string House) !! k with
    | Some h => Some (load_one fs1 conf root k h)
    | None => hs !! k
    end.
Proof.
  induction items as [|[k0 h0] items IH]; intros hs k Hnd; simpl.
  - by rewrite lookup_empty.
  - apply NoDup_cons in Hnd as [Hk0 Hnd]. rewrite IH by done.
    destruct (decide (k = k0)) as [->|Hne].
    + rewrite lookup_insert_eq.
      rewrite (not_elem_of_list_to_map_1 items k0) by done.
      by rewrite lookup_insert_eq.
    + by rewrite !lookup_insert_ne.
Qed.

(** X5: when the script fails with an [OSError], the directory set-up is
    all it did: the last call is the creation that raised, every call
    before it is an existence test or a creation, nothing was parsed,
    loaded, processed or saved. *)
Theorem script_oserror_stops_before_parsing conf args fs0 :
  (run_main conf args fs0).1 = Failed OSError →
  List.filter (λ c, negb (is_fs_call c)) (script_calls (run_main conf args fs0).2) = []
  ∧ script_houses (run_main conf args fs0).2 = ∅
  ∧ ∃ pre c, script_calls (run_main conf args fs0).2 = pre ++ [c]
             ∧ is_create_call c = true.
Proof.
  destruct (setup_fs fs0 (output_path args)) as [fs1|] eqn:Hsetup.
  - rewrite (main_after_setup _ _ _ _ Hsetup). cbv zeta.
    by destruct (script_process_run fs1 conf args).1.
  - destruct (main_setup_fails conf args fs0 Hsetup) as (_ & -> & ->). intros _.
    split; [| split; [done |]].
    + apply filter_nil. intros c Hc. by rewrite (setup_log_elem _ _ _ Hc).
    + revert Hsetup. unfold setup_fs, setup_log, ensure_calls, ensure_fs.
      destruct (osp_exists fs0 (output_path args)).
      * destruct (osp_exists fs0 (embeddings_dir (output_path args))).
        -- destruct (osp_exists fs0 (crops_dir (output_path args))); [done |].
           intros _. by eexists [_; _; _], _.
        -- destruct (os_mkdir fs0 (embeddings_dir (output_path args))) as [fb|];
             [| by eexists [_; _], _].
           destruct (osp_exists fb (crops_dir (output_path args))); [done |].
           intros _. by eexists [_; _; _; _], _.
      * destruct (os_makedirs fs0 (output_path args)) as [fa|];
          [| by eexists [_], _].
        destruct (osp_exists fa (embeddings_dir (output_path args))).
        -- destruct (osp_exists fa (crops_dir (output_path args))); [done |].
           intros _. by eexists [_; _; _; _], _.
        -- destruct (os_mkdir fa (embeddings_dir (output_path args))) as [fb|];
             [| by eexists [_; _; _], _].
           destruct (osp_exists fb (crops_dir (output_path args))); [done |].
           intros _. by eexists [_; _; _; _; _], _.
Qed.

(** X6: with both graph-generator flags the script never completes and
    makes no save call; when the directory set-up goes through, it fails
    with the assertion of [process], after all houses were loaded, and
    leaves the file system as the set-up left it. *)
Theorem script_conflicting_flags_save_nothing conf args fs0 :
  train_graph_generator_flag args = true →
  val_graph_generator_flag args = true →
  (run_main conf args fs0).1 ≠ Completed tt
  ∧ List.filter is_save_call (script_calls (run_main conf args fs0).2) = []
  ∧ ∀ fs1, setup_fs fs0 (output_path args) = Some fs1 →
      (run_main conf args fs0).1 = Failed (ProcessRaised AssertionError)
      ∧ fs (run_main conf args fs0).2 = fs1
      ∧ script_houses (run_main conf args fs0).2 = loaded_houses fs1 conf args.
Proof.
  intros Ht Hv.
  destruct (setup_fs fs0 (output_path args)) as [fs1|] eqn:Hsetup.
  - rewrite (main_after_setup _ _ _ _ Hsetup). cbv zeta.
    unfold script_process_run. rewrite Ht, Hv, process_aborts.
    cbn [fst snd fs script_houses script_calls houses calls].
    split; [done | split].
    + rewrite List.filter_app.
      rewrite (filter_nil _ (before_process_log _ _ _ _)) by save_free.
      by rewrite (filter_nil _ (in_process <$> _)) by save_free.
    + by intros ? [= <-].
  - destruct (main_setup_fails conf args fs0 Hsetup) as (-> & -> & _).
    split; [done | split; [| done]].
    by rewrite (filter_nil _ (setup_log _ _)) by save_free.
Qed.

(** X7: when the directory set-up goes through, the two flags are not
    both set and the batch size is positive, the script completes; its
    houses are those [process] left; every one of them is saved, once as
    crops and directly after once as embeddings, with the value [process]
    left and under the output path, in the order [houses.items()] yields
    them; and the save calls all come after the calls of [process], which
    come after everything else. *)
Theorem script_saves_what_process_left conf args fs0 fs1 :
  setup_fs fs0 (output_path args) = Some fs1 →
  train_graph_generator_flag args && val_graph_generator_flag args = false →
  0 < train_bs (texture_prop (process_conf conf)) →
  (run_main conf args fs0).1 = Completed tt
  ∧ script_houses (run_main conf args fs0).2 = houses (script_process_run fs1 conf args).2
  ∧ (∃ items,
       items ≡ₚ map_to_list (houses (script_process_run fs1 conf args).2)
       ∧ List.filter is_save_call (script_calls (run_main conf args fs0).2)
         = flat_map (save_calls_of (output_path args)) items)
  ∧ ∃ before saves,
      script_calls (run_main conf args fs0).2
      = before ++ (in_process <$> calls (script_process_run fs1 conf args).2) ++ saves
      ∧ List.filter is_save_call before = []
      ∧ List.filter is_in_process before = []
      ∧ List.filter is_load_call saves = []
      ∧ List.filter is_in_process saves = [].
Proof.
  intros Hsetup Htv _. rewrite (main_after_setup _ _ _ _ Hsetup). cbv zeta.
  assert (Hret : (script_process_run fs1 conf args).1 = Returned tt).
  { unfold script_process_run. by rewrite (process_returns _ _ _ _ _ _ Htv). }
  rewrite Hret. cbn [fst snd fs script_houses script_calls].
  split; [done | split; [done | split]].
  - exists (dict_items (houses (script_process_run fs1 conf args).2)).
    split; [apply dict_items_perm |].
    rewrite !List.filter_app, save_log_saves.
    rewrite (filter_nil _ (before_process_log _ _ _ _)) by save_free.
    by rewrite (filter_nil _ (in_process <$> _)) by save_free.
  - eexists _, _. split; [reflexivity |]. split_and!; apply filter_nil; save_free.
Qed.

(** X8: when the directory set-up goes through, every house that
    [parse_houses] yields has its crops loaded and directly after its
    embeddings, from the input path, in the order [houses.items()] yields
    them, and the dictionary keeps exactly its keys; for a positive batch
    size, the calls of [process] in the log are those of its run on the
    loaded houses. *)
Theorem script_loads_every_parsed_house conf args fs0 fs1 :
  setup_fs fs0 (output_path args) = Some fs1 →
  (∀ k, loaded_houses fs1 conf args !! k
        = load_one fs1 conf (input_path args) k <$> parsed_houses fs1 conf args !! k)
  ∧ (∃ items,
       items ≡ₚ map_to_list (parsed_houses fs1 conf args)
       ∧ List.filter is_load_call (script_calls (run_main conf args fs0).2)
         = flat_map (λ kh, [call_load_house_crops kh.1 (crops_path (input_path args) kh.1);
                            call_load_house_texture_embeddings kh.1
                              (embeddings_path (input_path args) kh.1)]) items)
  ∧ (0 < train_bs (texture_prop (process_conf conf)) →
     List.filter is_in_process (script_calls (run_main conf args fs0).2)
     = in_process <$> calls (script_process_run fs1 conf args).2).
Proof.
  intros Hsetup. split; [| split].
  - intros k. unfold loaded_houses.
    rewrite load_houses_lookup by apply dict_items_NoDup.
    rewrite list_to_map_dict_items.
    by destruct (parsed_houses fs1 conf args !! k).
  - exists (dict_items (parsed_houses fs1 conf args)).
    split; [apply dict_items_perm |].
    rewrite (main_after_setup _ _ _ _ Hsetup). cbv zeta.
    destruct (script_process_run fs1 conf args).1;
      cbn [snd script_calls]; unfold before_process_log;
      rewrite !List.filter_app, load_log_loads;
      rewrite (filter_nil _ (setup_log _ _)) by save_free;
      rewrite (filter_nil _ (in_process <$> _)) by save_free;
      rewrite ?(filter_nil _ (save_log _ _ _ _)) by save_free;
      by rewrite app_nil_r.
  - intros _. rewrite (main_after_setup _ _ _ _ Hsetup). cbv zeta.
    destruct (script_process_run fs1 conf args).1;
      cbn [snd script_calls]; rewrite !List.filter_app, in_process_filter;
      rewrite (filter_nil _ (before_process_log _ _ _ _)) by save_free;
      rewrite ?(filter_nil _ (save_log _ _ _ _)) by save_free;
      by rewrite ?app_nil_r.
Qed.

(** X9: when the output directory and its two sub-directories already
    exist, the script creates nothing and does not fail with an
    [OSError]. *)
Theorem script_existing_directories_untouched conf args fs0 :
  osp_exists fs0 (output_path args) = true →
  osp_exists fs0 (embeddings_dir (output_path args)) = true →
  osp_exists fs0 (crops_dir (output_path args)) = true →
  List.filter is_create_call (script_calls (run_main conf args fs0).2) = []
  ∧ (run_main conf args fs0).1 ≠ Failed OSError.
Proof.
  intros H1 H2 H3.
  assert (Hsetup : setup_fs fs0 (output_path args) = Some fs0).
  { unfold setup_fs, ensure_fs. by rewrite H1, H2, H3. }
  assert (Hlog : setup_log fs0 (output_path args)
                 = [call_osp_exists (output_path args);
                    call_osp_exists (embeddings_dir (output_path args));
                    call_osp_exists (crops_dir (output_path args))]).
  { unfold setup_log, ensure_fs, ensure_calls. by rewrite H1, H2, H3. }
  rewrite (main_after_setup _ _ _ _ Hsetup). cbv zeta.
  destruct (script_process_run fs0 conf args).1;
    cbn [fst snd script_calls]; (split; [| done]);
    unfold before_process_log; rewrite Hlog, !List.filter_app;
    rewrite (filter_nil _ (load_log _ _ _ _ _ _)) by save_free;
    rewrite (filter_nil _ (in_process <$> _)) by save_free;
    rewrite ?(filter_nil _ (save_log _ _ _ _)) by save_free;
    done.
Qed.

End ScriptTheorems.

(** ** More on the calls of [process] *)

Section ProcessCalls.
Context `{Collaborators}.

Lemma flat_map_ext_on {X Y} (f g : X → list Y) (l : list X) :
  (∀ x, In x l → f x = g x) → flat_map f l = flat_map g l.
Proof.
  induction l as [|x l IH]; intros Hfg; simpl; [done |].
  rewrite (Hfg x) by (by left). f_equal. apply IH. intros y Hy. apply Hfg. by right.
Qed.

Lemma loop_calls_progress conf p dl keep r : ∀ hs i,
  List.filter is_logging_or_predict (loop_calls conf p dl keep hs i r)
  = flat_map (λ j,
      [ call_logging_info
          (batch_message j
             (dataloader_len (dataset dl) (batch_size dl)
                (foldl (batch_step conf p dl keep) hs (seq i (j - i)))));
        call_predict j (device (texture_prop conf)) ]) (seq i r).
Proof.
  induction r as [|r IH]; intros hs i; [done |].
  cbn [loop_calls seq flat_map app List.filter is_logging_or_predict].
  rewrite Nat.sub_diag. cbn [seq foldl]. do 2 f_equal.
  rewrite IH. apply flat_map_ext_on. intros j [Hj _]%in_seq.
  replace (j - i) with (S (j - S i)) by lia. reflexivity.
Qed.

(** X10: for a positive batch size, [clear_predictions] is called
    exactly when [keep_existing_predictions] is false and the run gets
    past the flag assertion, and then once. *)
Theorem clear_predictions_only_without_keep conf hs cp keep t v :
  0 < train_bs (texture_prop conf) →
  List.filter is_clear_predictions (calls (run_process conf hs cp keep t v).2)
  = if keep || (t && v) then [] else [call_clear_predictions].
Proof.
  intros _. destruct (t && v) eqn:Htv.
  - apply andb_true_iff in Htv as [-> ->]. rewrite process_aborts.
    by rewrite orb_true_r.
  - rewrite (process_returns _ _ _ _ _ _ Htv). cbn [snd calls].
    rewrite !List.filter_app, loop_calls_filter_nil by done.
    unfold selected_generator. by destruct t, v, keep.
Qed.

(** X11: in a run that gets past the flag assertion and has a positive
    batch size, the messages logged and the predictions made are, in this
    order: for every batch index
    the message "Batch [i/n] Graph Inference", where n is the length of
    the loader at that moment, and then the prediction on batch i; and
    last the message "Synthesizing textures". *)
Theorem progress_logged_before_each_prediction conf hs cp keep t v :
  t && v = false →
  0 < train_bs (texture_prop conf) →
  let g := selected_generator conf t v in
  let dl := the_dataloader conf hs g in
  let step := batch_step conf (loaded_tp_predictor conf cp) dl keep in
  List.filter is_logging_or_predict (calls (run_process conf hs cp keep t v).2)
  = flat_map (λ i,
      [ call_logging_info
          (batch_message i
             (dataloader_len (dataset dl) (batch_size dl)
                (foldl step (entry_houses conf keep hs) (seq 0 i))));
        call_predict i (device (texture_prop conf)) ])
      (seq 0 (batch_count conf keep hs g))
    ++ [call_logging_info "Synthesizing textures"].
Proof.
  intros Htv _. cbv zeta. rewrite (process_returns _ _ _ _ _ _ Htv). cbn [snd calls].
  rewrite !List.filter_app, loop_calls_progress.
  assert (Hpre : List.filter is_logging_or_predict
                   (setup_calls conf cp
                    ++ [generator_call (selected_generator conf t v);
                        call_HouseDataset (selected_generator conf t v);
                        call_DataLoader (train_bs (texture_prop conf))]) = []).
  { unfold selected_generator. by destruct t, v. }
  rewrite List.filter_app in Hpre. apply app_eq_nil in Hpre as [-> ->].
  replace (List.filter is_logging_or_predict (if keep then [] else [call_clear_predictions]))
    with (@nil Call) by (by destruct keep).
  cbn [app List.filter is_logging_or_predict]. f_equal.
  apply flat_map_ext. intros i. by rewrite Nat.sub_0_r.
Qed.

End ProcessCalls.

(** ** The theorems on the script at the example inputs *)

Lemma relative_key_paths_witness :
  starts_with_sep "house1" = false
  ∧ crops_path "out" "house1" = "out/texture_crops/house1"
  ∧ embeddings_path "out/" "house1" = "out/surface_texture_embeddings/house1.json".
Proof.
  split; [reflexivity |]. split.
  - exact (proj1 (relative_key_paths "out" "house1" eq_refl)).
  - exact (proj2 (relative_key_paths "out/" "house1" eq_refl)).
Defined.

Lemma absolute_key_paths_witness :
  starts_with_sep "/tmp/house1" = true
  ∧ crops_path "out" "/tmp/house1" = "/tmp/house1"
  ∧ embeddings_path "out" "/tmp/house1" = "/tmp/house1.json".
Proof.
  split; [reflexivity |].
  exact (absolute_key_paths "out" "/tmp/house1" eq_refl).
Defined.

Lemma relative_key_paths_distinct_witness :
  starts_with_sep "house1" = false ∧ starts_with_sep "house2" = false
  ∧ crops_path "out" "house1" ≠ embeddings_path "out" "house2".
Proof.
  split; [reflexivity | split; [reflexivity |]].
  exact (proj2 (proj2 (relative_key_paths_distinct "out" "house1" "house2"
                         eq_refl eq_refl))).
Defined.

Lemma script_oserror_stops_before_parsing_witness :
  (example_main "" false false ∅).1 = Failed OSError
  ∧ script_houses (example_main "" false false ∅).2 = ∅.
Proof.
  assert (Hfail : (example_main "" false false ∅).1 = Failed OSError)
    by (vm_compute; reflexivity).
  split; [exact Hfail |].
  exact (proj1 (proj2 (script_oserror_stops_before_parsing
                         (H0 := example_script_collaborators)
                         example_script_conf (example_args "" false false) ∅ Hfail))).
Defined.

Lemma script_conflicting_flags_save_nothing_witness :
  train_graph_generator_flag (example_args "out" true true) = true
  ∧ val_graph_generator_flag (example_args "out" true true) = true
  ∧ List.filter is_save_call (script_calls (example_main "out" true true ∅).2) = [].
Proof.
  split; [reflexivity | split; [reflexivity |]].
  exact (proj1 (proj2 (script_conflicting_flags_save_nothing
                         (H0 := example_script_collaborators)
                         example_script_conf (example_args "out" true true) ∅
                         eq_refl eq_refl))).
Defined.

Lemma example_setup_fs :
  setup_fs (H0 := example_script_collaborators) ∅ "out"
  = Some ({[ "out/texture_crops" ]} ∪ ({[ "out/surface_texture_embeddings" ]}
            ∪ ({[ "out" ]} ∪ ∅))).
Proof. vm_compute. reflexivity. Qed.

Lemma example_batch_size_positive :
  0 < train_bs (texture_prop (process_conf example_script_conf)).
Proof. simpl. lia. Qed.

Lemma script_saves_what_process_left_witness :
  false && false = false
  ∧ 0 < train_bs (texture_prop (process_conf example_script_conf))
  ∧ (example_main "out" false false ∅).1 = Completed tt.
Proof.
  split; [reflexivity | split; [exact example_batch_size_positive |]].
  exact (proj1 (script_saves_what_process_left
                  (H0 := example_script_collaborators)
                  example_script_conf (example_args "out" false false) ∅ _
                  example_setup_fs eq_refl example_batch_size_positive)).
Defined.

Lemma script_loads_every_parsed_house_witness :
  ∃ items,
    items ≡ₚ map_to_list example_houses
    ∧ List.filter is_load_call (script_calls (example_main "out" false false ∅).2)
      = flat_map (λ kh, [call_load_house_crops kh.1 (crops_path "in" kh.1);
                         call_load_house_texture_embeddings kh.1
                           (embeddings_path "in" kh.1)]) items.
Proof.
  exact (proj1 (proj2 (script_loads_every_parsed_house
                         (H0 := example_script_collaborators)
                         example_script_conf (example_args "out" false false) ∅ _
                         example_setup_fs))).
Defined.

Lemma script_existing_directories_untouched_witness :
  List.filter is_create_call
    (script_calls (example_main "out" false false
       ({[ "out"; "out/surface_texture_embeddings"; "out/texture_crops" ]})).2) = [].
Proof.
  refine (proj1 (script_existing_directories_untouched
                   (H0 := example_script_collaborators)
                   example_script_conf (example_args "out" false false)
                   ({[ "out"; "out/surface_texture_embeddings"; "out/texture_crops" ]})
                   _ _ _)); vm_compute; reflexivity.
Defined.

Lemma clear_predictions_only_without_keep_witness :
  0 < train_bs (texture_prop example_conf)
  ∧ List.filter is_clear_predictions (calls (example_run false false false).2)
    = [call_clear_predictions].
Proof.
  assert (Hbs : 0 < train_bs (texture_prop example_conf)) by (simpl; lia).
  split; [exact Hbs |].
  exact (clear_predictions_only_without_keep
           (H := spec_collaborators example_gnn example_synthesize)
           example_conf example_houses "gnn.ckpt" false false false Hbs).
Defined.

Lemma progress_logged_before_each_prediction_witness :
  false && false = false
  ∧ 0 < train_bs (texture_prop example_conf)
  ∧ List.filter is_logging_or_predict (calls (example_run false false false).2)
    = [ call_logging_info "Batch [0/2] Graph Inference"; call_predict 0 "cpu";
        call_logging_info "Batch [1/2] Graph Inference"; call_predict 1 "cpu";
        call_logging_info "Synthesizing textures" ].
Proof.
  assert (Hbs : 0 < train_bs (texture_prop example_conf)) by (simpl; lia).
  split; [reflexivity | split; [exact Hbs |]].
  exact (progress_logged_before_each_prediction
           (H := spec_collaborators example_gnn example_synthesize)
           example_conf example_houses "gnn.ckpt" false false false eq_refl Hbs).
Defined.
